(** * c2chapel: a shallow embedding of [tools/c2chapel/c2chapel.py]

    The translator walks a pycparser declaration tree and prints Chapel
    [extern] declarations.  The embedding keeps the structure of the Python
    source: one Rocq function per Python function, Python exceptions as an
    error result, the three module-level registries ([typeDefs],
    [foundTypes], standard output) as an explicit state threaded through a
    small state-and-exception monad.

    Conventions.  A Python value that may be [None] is an [option].  A
    string is a sequence of code points below 256.  Standard output is the
    list of the chunks written, one per [print] or dump, each [print]
    ending its chunk with a line break.  The parser, the preprocessor and
    the command line are outside: the tree, the lines of the header and
    the set of ignored typedef names are inputs. *)

From Stdlib Require Import List String Ascii Bool Arith Lia.
From Stdlib Require Import DecimalString.
From Stdlib Require Import Sorting.Sorted Sorting.Permutation.
Import ListNotations.
Local Open Scope list_scope.
Local Open Scope string_scope.

(** ** Python strings and lists *)

Module Py.

(** [str(n)] for a non-negative integer. *)
Definition str_of_nat (n : nat) : string :=
  NilZero.string_of_uint (Nat.to_uint n).

(** [sep.join(l)] *)
Definition join (sep : string) (l : list string) : string :=
  String.concat sep l.

(** [s.startswith(p)] *)
Definition startswith (p s : string) : bool := String.prefix p s.

(** [s.endswith(p)] *)
Fixpoint endswith (p s : string) : bool :=
  (p =? s) ||
  match s with
  | EmptyString => false
  | String _ s' => endswith p s'
  end.

(** Drop the first [n] characters. *)
Fixpoint drop (n : nat) (s : string) : string :=
  match n, s with
  | O, _ => s
  | S n', String _ s' => drop n' s'
  | S _, EmptyString => EmptyString
  end.

(** [s.split(sep)] for a non-empty separator: [cur] holds the characters
    of the piece being read; [skip] counts the characters of a
    separator just recognised that are still to be passed over. *)
Fixpoint split_aux (sep : string) (s : string) (skip : nat) (cur : string)
  : list string :=
  match s with
  | EmptyString => [cur]
  | String c s' =>
      match skip with
      | S k => split_aux sep s' k cur
      | O =>
          if String.prefix sep s
          then cur :: split_aux sep s' (String.length sep - 1) EmptyString
          else split_aux sep s' 0 (cur ++ String c EmptyString)
      end
  end.

Definition split (sep s : string) : list string := split_aux sep s 0 "".

(** [x in l] for a list or a set of strings; [None] is Python's [None],
    which is never a member of a collection of strings. *)
Definition mem (x : option string) (l : list string) : bool :=
  match x with
  | Some s => existsb (String.eqb s) l
  | None => false
  end.

(** [l[-1]], for a list that [split] returned (never empty). *)
Definition last (l : list string) : string := List.last l "".

(** [l[:-1]] *)
Definition init (l : list string) : list string := List.removelast l.

End Py.

(** The line break. *)
Definition newline : string := String (ascii_of_nat 10) EmptyString.

(** ** The declaration tree (pycparser's [c_ast])

    One constructor per node class the translator inspects; a [FuncDecl]
    holds the parameters of its [ParamList] directly, and [ParamList] itself
    appears only among the children of a [FuncDecl].  The
    pycparserext classes [TypeDeclExt], [ArrayDeclExt] and [FuncDeclExt] are
    tested together with their base class at every place of the source, so
    they share the base constructor.  An [Enum]'s [EnumeratorList] is kept as
    the list of its enumerator names; [Constant] stands for any expression
    node (initialisers, array sizes, bit-field widths). *)

#[local] Set Warnings "-register-all".

Inductive node : Type :=
| IdentifierType (names : list string)
| Struct (name : option string) (decls : option (list node))
| Union (name : option string) (decls : option (list node))
| Enum (name : option string) (values : option (list string))
| TypeDecl (declname : option string) (quals : list string) (type : node)
| PtrDecl (quals : list string) (type : node)
| ArrayDecl (type : node) (dim : option node)
| FuncDecl (args : option (list node)) (type : node)
| ParamList (params : list node)
| Decl (name : option string) (quals : list string) (type : node)
       (init : option node) (bitsize : option node)
| Typename (name : option string) (quals : list string) (type : node)
| Typedef (name : string) (quals : list string) (type : node)
| EllipsisParam
| Pragma (text : string)
| Constant (text : string)
| FuncDef (decl : node)
| FileAST (ext : list node).

(** The class of a node, as [type(node)] sees it. *)
Inductive node_class : Type :=
| CIdentifierType | CStruct | CUnion | CEnum | CTypeDecl | CPtrDecl
| CArrayDecl | CFuncDecl | CParamList | CDecl | CTypename | CTypedef
| CEllipsisParam
| CPragma | CConstant | CFuncDef | CFileAST.

Definition class_of (n : node) : node_class :=
  match n with
  | IdentifierType _ => CIdentifierType
  | Struct _ _ => CStruct
  | Union _ _ => CUnion
  | Enum _ _ => CEnum
  | TypeDecl _ _ _ => CTypeDecl
  | PtrDecl _ _ => CPtrDecl
  | ArrayDecl _ _ => CArrayDecl
  | FuncDecl _ _ => CFuncDecl
  | ParamList _ => CParamList
  | Decl _ _ _ _ _ => CDecl
  | Typename _ _ _ => CTypename
  | Typedef _ _ _ => CTypedef
  | EllipsisParam => CEllipsisParam
  | Pragma _ => CPragma
  | Constant _ => CConstant
  | FuncDef _ => CFuncDef
  | FileAST _ => CFileAST
  end.

Definition class_name (c : node_class) : string :=
  match c with
  | CIdentifierType => "IdentifierType" | CStruct => "Struct"
  | CUnion => "Union" | CEnum => "Enum" | CTypeDecl => "TypeDecl"
  | CPtrDecl => "PtrDecl" | CArrayDecl => "ArrayDecl"
  | CFuncDecl => "FuncDecl" | CParamList => "ParamList"
  | CDecl => "Decl" | CTypename => "Typename"
  | CTypedef => "Typedef" | CEllipsisParam => "EllipsisParam"
  | CPragma => "Pragma" | CConstant => "Constant" | CFuncDef => "FuncDef"
  | CFileAST => "FileAST"
  end.

(** [str(type(node))] *)
Definition type_repr (n : node) : string :=
  "<class 'pycparser.c_ast." ++ class_name (class_of n) ++ "'>".

(** ** Exceptions *)

(** [ParseError shown msg]: the source dumps [shown] on standard output
    ([shown.show()]) and then raises [c_parser.ParseError(msg)]. *)
Inductive exn : Type :=
| AttributeError (attr : string)
| TypeError
| KeyError
| RecursionError
| Exception (msg : string)
| ParseError (shown : node) (msg : string).

Inductive result (A : Type) : Type :=
| Ok (a : A)
| Raise (e : exn).
Arguments Ok {A} a.
Arguments Raise {A} e.

Definition rbind {A B} (r : result A) (k : A -> result B) : result B :=
  match r with
  | Ok a => k a
  | Raise e => Raise e
  end.

Declare Scope res_scope.
Delimit Scope res_scope with res.
Notation "x <- r ;; k" := (rbind r (fun x => k))
  (at level 61, r at next level, right associativity) : res_scope.
Local Open Scope res_scope.

(** ** Attribute access

    Reading an attribute a node class does not have raises
    [AttributeError]. *)

Definition attr_type (n : node) : result node :=
  match n with
  | TypeDecl _ _ t | PtrDecl _ t | ArrayDecl t _ | FuncDecl _ t
  | Decl _ _ t _ _ | Typename _ _ t | Typedef _ _ t => Ok t
  | _ => Raise (AttributeError "type")
  end.

Definition attr_quals (n : node) : result (list string) :=
  match n with
  | TypeDecl _ q _ | PtrDecl q _ | Decl _ q _ _ _ | Typename _ q _
  | Typedef _ q _ => Ok q
  | _ => Raise (AttributeError "quals")
  end.

Definition attr_name (n : node) : result (option string) :=
  match n with
  | Struct nm _ | Union nm _ | Enum nm _ | Decl nm _ _ _ _
  | Typename nm _ _ => Ok nm
  | Typedef nm _ _ => Ok (Some nm)
  | _ => Raise (AttributeError "name")
  end.

Definition attr_decls (n : node) : result (option (list node)) :=
  match n with
  | Struct _ d | Union _ d => Ok d
  | _ => Raise (AttributeError "decls")
  end.

Definition attr_declname (n : node) : result (option string) :=
  match n with
  | TypeDecl d _ _ => Ok d
  | _ => Raise (AttributeError "declname")
  end.

(** ["const" in quals] *)
Definition has_const (quals : list string) : bool :=
  Py.mem (Some "const") quals.

(** ** The registry of primitive types: the dictionary [c2chapel] *)

Definition dict := list (string * string).

Fixpoint dict_get (d : dict) (k : string) : option string :=
  match d with
  | [] => None
  | (k', v) :: d' => if k' =? k then Some v else dict_get d' k
  end.

(** [d[k] = v]: an existing key keeps its place, a new one goes last. *)
Fixpoint dict_set (d : dict) (k v : string) : dict :=
  match d with
  | [] => [(k, v)]
  | (k', v') :: d' =>
      if k' =? k then (k', v) :: d' else (k', v') :: dict_set d' k v
  end.

Definition dict_keys (d : dict) : list string := map fst d.

(** The assignments of lines 65-96, in order. *)
Definition c2chapel_literal : list (string * string) :=
  [ ("double", "c_double"); ("float", "c_float"); ("char", "c_char");
    ("void", "");
    ("int", "c_int"); ("unsigned", "c_uint"); ("unsigned int", "c_uint");
    ("long", "c_long"); ("unsigned long", "c_ulong");
    ("long long", "c_longlong"); ("unsigned long long", "c_ulonglong");
    ("char", "c_char"); ("signed char", "c_schar");
    ("unsigned char", "c_uchar"); ("short", "c_short");
    ("unsigned short", "c_ushort"); ("intptr_t", "c_intptr");
    ("uintptr_t", "c_uintptr"); ("ptrdiff_t", "c_ptrdiff");
    ("ssize_t", "c_ssize_t"); ("size_t", "c_size_t");
    ("wchar_t", "c_wchar_t"); ("long double", "c_longlong");
    ("signed short", "c_short"); ("signed int", "c_int");
    ("signed long long", "c_longlong"); ("signed long", "c_long");
    ("FILE", "c_FILE") ].

Definition assign_all (d : dict) (kvs : list (string * string)) : dict :=
  fold_left (fun d kv => dict_set d (fst kv) (snd kv)) kvs d.

(** Lines 98-101: every key ending in "long" also gets a "... int"
    spelling. *)
Definition add_long_int (d : dict) : dict :=
  fold_left
    (fun d key =>
       if Py.endswith "long" key
       then match dict_get d key with
            | Some v => dict_set d (key ++ " int") v
            | None => d
            end
       else d)
    (dict_keys d) d.

(** Lines 103-109: the fixed-width integers, [i] from 3 to 6. *)
Definition add_fixed_width (d : dict) : dict :=
  fold_left
    (fun d i =>
       let width := 2 ^ i in
       let s := "int" ++ Py.str_of_nat width ++ "_t" in
       let ch := "int(" ++ Py.str_of_nat width ++ ")" in
       dict_set (dict_set d s ch) ("u" ++ s) ("u" ++ ch))
    (seq 3 4) d.

Definition c2chapel : dict :=
  Eval vm_compute in
    add_fixed_width (add_long_int (assign_all [] c2chapel_literal)).

Definition VARARGS_STR : string := "c__varargs ...".

(** The double-quote character. *)
Definition dquote : string := String (ascii_of_nat 34) EmptyString.

Definition chapelKeywords : list string :=
  ["align";"as";"atomic";"begin";"break";"by";"class";
   "cobegin";"coforall";"config";"const";"continue";"delete";"dmapped";"do";
   "domain";"else";"enum";"except";"export";"extern";"for";"forall";"if";
   "in";"index";"inline";"inout";"iter";"label";"lambda";"let";"local";
   "module";"new";
   "nil";"noinit";"on";"only";"otherwise";"out";"param";"private";"proc";
   "public";"record";"reduce";"ref";"require";"return";"scan";"select";
   "serial";"sparse";"subdomain";"sync";"then";"type";"union";"use";
   "var";"when";"where";"while";"with";"yield";"zip";"string";"bytes";
   "locale"].

(** ** Names and types *)

Definition getDeclName (decl : node) : result (option string) :=
  let inner := match decl with TypeDecl _ _ t => t | _ => decl end in
  match inner with
  | IdentifierType names => Ok (Some (Py.join " " names))
  | Struct nm _ | Union nm _ => Ok nm
  | Decl nm _ _ _ _ => Ok nm
  | Enum _ _ => Ok (Some "c_int")
  | _ => Raise (Exception ("Unhandled node type: " ++ type_repr inner))
  end.

Definition opt_eqb (a : option string) (b : string) : bool :=
  match a with
  | Some s => s =? b
  | None => false
  end.

Definition isPointerTo (ty : node) (text : string) : result bool :=
  match ty with
  | PtrDecl _ (TypeDecl _ _ _ as t) =>
      name <- getDeclName t ;;
      Ok (opt_eqb name text)
  | _ => Ok false
  end.

(** The two spellings of the pointer wrapper, chosen by the pointee's
    qualifiers. *)
Definition ptrWrap (quals : list string) (elt : string) : string :=
  if has_const quals then "c_ptrConst(" ++ elt ++ ")"
  else "c_ptr(" ++ elt ++ ")".

(** ["..." + x + "..."] where [x] may be [None]. *)
Definition str_of (x : option string) : result string :=
  match x with
  | Some s => Ok s
  | None => Raise TypeError
  end.

(** The result is a string, or [None] (for a [TypeDecl] around an
    aggregate without a tag). *)
Fixpoint toChapelType (ty : node) : result (option string) :=
  c <- isPointerTo ty "char" ;;
  if (c : bool) then
    t <- attr_type ty ;;
    q <- attr_quals t ;;
    Ok (Some (ptrWrap q "c_char"))
  else
    match ty with
    | ArrayDecl t _ =>
        eltType <- toChapelType t ;;
        match eltType with
        | Some e =>
            match t with
            | ArrayDecl _ _ => Ok (Some e)
            | _ => q <- attr_quals t ;; Ok (Some (ptrWrap q e))
            end
        | None => Ok None
        end
    | PtrDecl _ t =>
        match t with
        | FuncDecl _ _ => Ok (Some "c_fn_ptr")
        | _ =>
            v <- isPointerTo ty "void" ;;
            eltType <- (if (v : bool) then Ok (Some "void")
                        else toChapelType t) ;;
            q <- attr_quals t ;;
            e <- str_of eltType ;;
            Ok (Some (ptrWrap q e))
        end
    | TypeDecl _ _ _ =>
        match getDeclName ty with
        | Ok (Some name) =>
            match dict_get c2chapel name with
            | Some v => Ok (Some v)
            | None => Ok (Some name)
            end
        | Ok None => Ok None
        | Raise (Exception msg) => Raise (Exception ("toChapelType: " ++ msg))
        | Raise e => Raise e
        end
    | FuncDecl _ _ => Ok (Some "c_fn_ptr")
    | _ => Raise (ParseError ty "Unable to translate to Chapel type")
    end.

(** ** The regular expression of line 344

    [re.match(r'.*: \bva_list\b', args)]: some occurrence of ": va_list"
    that no line break precedes and no word character follows.  (The first
    word boundary always holds, between the blank and the "v".) *)

Definition code (c : ascii) : nat := nat_of_ascii c.

Definition in_range (lo hi n : nat) : bool :=
  ((lo <=? n) && (n <=? hi))%nat.

(** [\w] on the code points below 256. *)
Definition is_word (c : ascii) : bool :=
  let n := code c in
  (in_range 48 57 n || in_range 65 90 n || in_range 97 122 n || (n =? 95)
   || (n =? 170) || (n =? 178) || (n =? 179) || (n =? 181) || (n =? 185)
   || (n =? 186) || in_range 188 190 n || in_range 192 214 n
   || in_range 216 246 n || in_range 248 255 n)%nat.

(** [\s] on the code points below 256. *)
Definition is_space (c : ascii) : bool :=
  let n := code c in
  (in_range 9 13 n || in_range 28 32 n || (n =? 133) || (n =? 160))%nat.

Definition word_boundary_after_word (rest : string) : bool :=
  match rest with
  | EmptyString => true
  | String c _ => negb (is_word c)
  end.

Fixpoint match_va_list (s : string) : bool :=
  (String.prefix ": va_list" s && word_boundary_after_word (Py.drop 9 s))
  || match s with
     | EmptyString => false
     | String c s' => if (code c =? 10)%nat then false else match_va_list s'
     end.

(** ** The regular expression of line 597

    [^\s*#define\s+([_a-zA-Z0-9]+)\s+[0-9]+$], matched at the start of a
    line.  Neighbouring character classes are disjoint, so the leftmost
    longest reading is the only one; the final [$] accepts the end of the
    string or a single line break before it. *)

Fixpoint take_while (p : ascii -> bool) (s : string) : string :=
  match s with
  | EmptyString => EmptyString
  | String c s' => if p c then String c (take_while p s') else EmptyString
  end.

Fixpoint drop_while (p : ascii -> bool) (s : string) : string :=
  match s with
  | EmptyString => EmptyString
  | String c s' => if p c then drop_while p s' else s
  end.

(** [[_a-zA-Z0-9]] *)
Definition is_ident (c : ascii) : bool :=
  let n := code c in
  ((n =? 95) || in_range 97 122 n || in_range 65 90 n || in_range 48 57 n)%nat.

(** [[0-9]] *)
Definition is_digit (c : ascii) : bool := in_range 48 57 (code c).

(** The macro name ([res.group(1)]) when the line matches. *)
Definition match_define (line : string) : option string :=
  let s1 := drop_while is_space line in
  if negb (String.prefix "#define" s1) then None else
  let s2 := Py.drop 7 s1 in
  if take_while is_space s2 =? "" then None else
  let s3 := drop_while is_space s2 in
  let name := take_while is_ident s3 in
  if name =? "" then None else
  let s4 := drop_while is_ident s3 in
  if take_while is_space s4 =? "" then None else
  let s5 := drop_while is_space s4 in
  if take_while is_digit s5 =? "" then None else
  let s6 := drop_while is_digit s5 in
  if (s6 =? "") || (s6 =? newline) then Some name else None.

(** ** State: the module's registries and standard output *)

(** [typeDefs]: a typedef's node, or [None] once the name is settled.  A
    key is a typedef name or an aggregate's tag, which is [None] for an
    aggregate without one. *)
Definition typedefs := list (option string * option node).

Definition key_eqb (a b : option string) : bool :=
  match a, b with
  | Some x, Some y => x =? y
  | None, None => true
  | _, _ => false
  end.

Fixpoint td_get (d : typedefs) (k : option string) : option (option node) :=
  match d with
  | [] => None
  | (k', v) :: d' => if key_eqb k' k then Some v else td_get d' k
  end.

Fixpoint td_set (d : typedefs) (k : option string) (v : option node)
  : typedefs :=
  match d with
  | [] => [(k, v)]
  | (k', v') :: d' =>
      if key_eqb k' k then (k', v) :: d' else (k', v') :: td_set d' k v
  end.

Definition td_mem (d : typedefs) (k : option string) : bool :=
  match td_get d k with
  | Some _ => true
  | None => false
  end.

Record state : Type := mkState {
  typeDefs : typedefs;
  foundTypes : list string;
  stdout : list string
}.

Definition initial : state := mkState [] [] [].

(** A computation reads and updates the state and returns or raises; what
    was printed before an exception stays printed. *)
Definition M (A : Type) : Type := state -> result A * state.

Definition ret {A} (a : A) : M A := fun st => (Ok a, st).

Definition bind {A B} (m : M A) (k : A -> M B) : M B :=
  fun st =>
    match m st with
    | (Ok a, st') => k a st'
    | (Raise e, st') => (Raise e, st')
    end.

Declare Scope m_scope.
Delimit Scope m_scope with m.
Notation "x <~ m ;; k" := (bind m (fun x => k))
  (at level 61, m at next level, right associativity) : m_scope.
Notation "m >> k" := (bind m (fun _ => k))
  (at level 61, right associativity) : m_scope.
Local Open Scope m_scope.

Definition write (chunk : string) : M unit :=
  fun st =>
    (Ok tt, mkState (typeDefs st) (foundTypes st) (stdout st ++ [chunk])%list).

(** [print(s)] *)
Definition print (s : string) : M unit := write (s ++ newline).

Definition get_typeDefs : M typedefs := fun st => (Ok (typeDefs st), st).

Definition set_typeDef (k : option string) (v : option node) : M unit :=
  fun st =>
    (Ok tt, mkState (td_set (typeDefs st) k v) (foundTypes st) (stdout st)).

Definition get_foundTypes : M (list string) :=
  fun st => (Ok (foundTypes st), st).

(** [foundTypes.add(name)] *)
Definition add_foundType (name : string) : M unit :=
  fun st =>
    (Ok tt,
     mkState (typeDefs st)
             (if Py.mem (Some name) (foundTypes st) then foundTypes st
              else (foundTypes st ++ [name])%list)
             (stdout st)).

Section Loops.
Context {A : Type} (body : A -> M unit).

Fixpoint mapM_ (l : list A) : M unit :=
  match l with
  | [] => ret tt
  | x :: l' => body x >> mapM_ l'
  end.
End Loops.

(** [for x in l: body] *)
Definition forM_ {A} (l : list A) (body : A -> M unit) : M unit :=
  mapM_ body l.

Definition attr_args (n : node) : result (option (list node)) :=
  match n with
  | FuncDecl a _ => Ok a
  | _ => Raise (AttributeError "args")
  end.

(** ** The translator *)

Section Translator.

(** The two module-level switches set from the command line, and
    pycparser's rendering of a node ([node.show]), which belongs to the
    parsing library. *)
Variable noComments : bool.
Variable DEBUG : bool.
Variable show_text : node -> string.

(** A raising helper has written its dump before the exception leaves
    it. *)
Definition lift {A} (r : result A) : M A :=
  match r with
  | Ok a => ret a
  | Raise (ParseError shown msg) =>
      fun st =>
        (Raise (ParseError shown msg),
         mkState (typeDefs st) (foundTypes st)
                 (stdout st ++ [show_text shown])%list)
  | Raise e => fun st => (Raise e, st)
  end.

Definition raise {A} (e : exn) : M A := lift (Raise e).

Definition genComment (s : string) : M unit :=
  if noComments then ret tt
  else forM_ (Py.split newline s) (fun line => print ("// " ++ line)).

Definition commentNode (n : node) : M unit := genComment (show_text n).

Definition computeArgName (decl : node) : result (option string) :=
  match decl with
  | Typename _ _ _ => Ok (Some "")
  | Decl nm _ _ _ _ =>
      if Py.mem nm chapelKeywords
      then n <- str_of nm ;; Ok (Some (n ++ "_arg"))
      else Ok nm
  | _ => Raise (ParseError decl "Unhandled Node type")
  end.

(** The recursion follows typedef names through the table; each step
    looks one name up, so more steps than the table has entries means a
    cycle, on which Python stops with [RecursionError]. *)
Fixpoint isStructOrUnionType_rec (fuel : nat) (tds : typedefs) (ast : node)
  : result bool :=
  let inner := match ast with TypeDecl _ _ t => t | _ => ast end in
  let tail :=
    match inner with
    | Struct _ _ | Union _ _ => Ok true
    | _ => Ok false
    end in
  match inner with
  | IdentifierType names =>
      match td_get tds (Some (Py.join " " names)) with
      | Some entry =>
          match fuel with
          | O => Raise RecursionError
          | S fuel' =>
              match entry with
              | Some td =>
                  t <- attr_type td ;; isStructOrUnionType_rec fuel' tds t
              | None => Raise (AttributeError "type")
              end
          end
      | None => tail
      end
  | _ => tail
  end.

Definition isStructOrUnionType (tds : typedefs) (ast : node) : result bool :=
  isStructOrUnionType_rec (List.length tds) tds ast.

(** The truth value of a string or [None]. *)
Definition truthy (x : option string) : bool :=
  match x with
  | Some EmptyString | None => false
  | Some _ => true
  end.

Definition is_PtrDecl (n : node) : bool :=
  match n with PtrDecl _ _ => true | _ => false end.

(** [a or b], the second operand evaluated only when the first is
    false. *)
Definition or_else (a : result bool) (b : result bool) : result bool :=
  x <- a ;; if (x : bool) then Ok true else b.

Definition getIntentInfo (ty : node)
  : result (string * option string * option string) :=
  ptrType <- (if is_PtrDecl ty then toChapelType ty else Ok (Some "")) ;;
  byRef <-
    (if is_PtrDecl ty then
       special <-
         or_else (isPointerTo ty "unsigned char")
           (or_else (isPointerTo ty "char")
              (or_else (isPointerTo ty "void")
                 (t <- toChapelType ty ;; Ok (opt_eqb t "c_fn_ptr")))) ;;
       Ok (negb special)
     else Ok false) ;;
  if (byRef : bool) then
    isConst <-
      (if truthy ptrType then
         pointee <- attr_type ty ;;
         q <- attr_quals pointee ;;
         Ok (has_const q)
       else Ok false) ;;
    let refIntent := (if (isConst : bool) then "const " else "") ++ "ref" in
    pointee <- attr_type ty ;;
    retType <- toChapelType pointee ;;
    Ok (refIntent, retType, ptrType)
  else
    retType <- toChapelType ty ;;
    Ok ("", retType, ptrType).

Fixpoint computeArgs_loop (tds : typedefs) (i : nat) (params : list node)
         (formals ptrFormals : list string)
  : result (list string * list string) :=
  match params with
  | [] => Ok (formals, ptrFormals)
  | arg :: rest =>
      match arg with
      | EllipsisParam =>
          computeArgs_loop tds (S i) rest
            (formals ++ [VARARGS_STR])%list (ptrFormals ++ [VARARGS_STR])%list
      | _ =>
          ty <- attr_type arg ;;
          info <- getIntentInfo ty ;;
          let '(intent, typeName, ptrTypeName) := info in
          argName <- computeArgName arg ;;
          if negb (opt_eqb typeName "") then
            intent <-
              (if intent =? "" then
                 b <- isStructOrUnionType tds ty ;;
                 Ok (if (b : bool) then "in " else "")
               else Ok (intent ++ " ")) ;;
            let argName :=
              if opt_eqb argName "" then Some ("arg" ++ Py.str_of_nat i)
              else argName in
            a <- str_of argName ;;
            t <- str_of typeName ;;
            let formal := intent ++ a ++ " : " ++ t in
            ptrFormal <-
              (if negb (opt_eqb ptrTypeName "") then
                 p <- str_of ptrTypeName ;; Ok (a ++ " : " ++ p)
               else Ok formal) ;;
            computeArgs_loop tds (S i) rest
              (formals ++ [formal])%list (ptrFormals ++ [ptrFormal])%list
          else computeArgs_loop tds (S i) rest formals ptrFormals
      end
  end.

(** [pl] is the [params] list of a [ParamList], or [None]. *)
Definition computeArgs (tds : typedefs) (pl : option (list node))
  : result (string * string) :=
  match pl with
  | None => Ok ("", "")
  | Some params =>
      r <- computeArgs_loop tds 0 params [] [] ;;
      Ok (Py.join ", " (fst r), Py.join ", " (snd r))
  end.

Fixpoint getFunctionName (ty : node) : result (option string) :=
  match ty with
  | PtrDecl _ t => getFunctionName t
  | FuncDecl _ t => getFunctionName t
  | TypeDecl declname _ _ => Ok declname
  | _ => Raise (ParseError ty "Expecting TypeDecl...")
  end.

(** One emitted function declaration. *)
Definition externProc (fnName args retType : string) : string :=
  "extern proc " ++ fnName ++ "(" ++ args ++ ") : " ++ retType ++ ";"
  ++ newline.

Definition genFuncDecl (fn : node) : M unit :=
  retType <~ lift (t <- attr_type fn ;; toChapelType t) ;;
  fnName <~ lift (t <- attr_type fn ;; getFunctionName t) ;;
  tds <~ get_typeDefs ;;
  ar <~ lift (pl <- attr_args fn ;; computeArgs tds pl) ;;
  let '(args, ptrArgs) := ar in
  if Py.mem fnName chapelKeywords then
    name <~ lift (str_of fnName) ;;
    genComment ("Unable to generate function '" ++ name
                ++ "' because its name is a Chapel keyword") >>
    print ""
  else if match_va_list args then
    name <~ lift (str_of fnName) ;;
    genComment ("Unable to generate function '" ++ name
                ++ "' due to va_list argument") >>
    print ""
  else
    let retType := if opt_eqb retType "" then Some "void" else retType in
    name <~ lift (str_of fnName) ;;
    rt <~ lift (str_of retType) ;;
    print (externProc name args rt) >>
    (if negb (ptrArgs =? args) then print (externProc name ptrArgs rt)
     else ret tt) >>
    let listArgs := Py.split ", " args in
    if Py.last listArgs =? VARARGS_STR then
      let newArgs := Py.join "," (Py.init listArgs) in
      genComment "Overload for empty varargs" >>
      print (externProc name newArgs rt)
    else ret tt.

(** *** Aggregates *)

Fixpoint getStructOrUnionDef (decl : node) : option node :=
  match decl with
  | Struct _ (Some _) | Union _ (Some _) => Some decl
  | Struct _ None | Union _ None => None
  | Decl _ _ t _ _ | TypeDecl _ _ t | PtrDecl _ t => getStructOrUnionDef t
  | _ => None
  end.

(** [not decls]: [None] or an empty list. *)
Definition no_decls (d : option (list node)) : bool :=
  match d with
  | None | Some [] => true
  | Some (_ :: _) => false
  end.

Definition isStructOrUnionForwardDeclared (tds : typedefs) (n : node)
  : result bool :=
  b <- isStructOrUnionType tds n ;;
  if (b : bool) then d <- attr_decls n ;; Ok (no_decls d) else Ok false.

Definition is_Union (n : option node) : bool :=
  match n with Some (Union _ _) => true | _ => false end.

Definition is_Pragma (n : node) : bool :=
  match n with Pragma _ => true | _ => false end.

(** What the field loop of [genStructOrUnion] leaves behind: the text
    of the members and the two warning flags. *)
Record fields : Type := mkFields {
  members : string;
  warnKeyword : bool;
  warnSkippingAnonymousType : bool
}.

Definition fieldLine (fieldName chapelType : string) : string :=
  "  var " ++ fieldName ++ " : " ++ chapelType ++ ";" ++ newline.

(** Line 410-412, with [rec] the translator itself: the aggregate
    definition inside a member, if there is one, is translated first. *)
Fixpoint genInner (rec : node -> M unit) (decl : node) : M unit :=
  match decl with
  | Struct _ (Some _) | Union _ (Some _) => rec decl
  | Decl _ _ t _ _ | TypeDecl _ _ t | PtrDecl _ t => genInner rec t
  | _ => ret tt
  end.

(** Lines 409-426. *)
Fixpoint fieldLoop (rec : node -> M unit) (decls : list node)
         (acc : string) : M fields :=
  match decls with
  | [] => ret (mkFields acc false false)
  | decl :: rest =>
      genInner rec decl >>
      if is_Pragma decl then ret (mkFields acc false false)
      else
        fieldName <~ lift (getDeclName decl) ;;
        if Py.mem fieldName chapelKeywords then ret (mkFields "" true false)
        else
          chapelType <~ lift (t <- attr_type decl ;; toChapelType t) ;;
          match chapelType with
          | None => ret (mkFields acc false true)
          | Some ct =>
              f <~ lift (str_of fieldName) ;;
              fieldLoop rec rest (acc ++ fieldLine f ct)
          end
  end.

(** The opening of a declaration, up to the brace. *)
Definition aggregateHead (isUnion isAnon : bool) (name : string) : string :=
  (if isAnon then (if isUnion then "extern union " else "extern record ")
   else if isUnion then "extern " ++ dquote ++ "union " ++ name ++ dquote
                        ++ " union "
        else "extern " ++ dquote ++ "struct " ++ name ++ dquote
             ++ " record ")
  ++ name ++ " {".

(** Lines 428-435. *)
Definition finishAggregate (head : string) (fs : fields) : M unit :=
  let body := if members fs =? "" then "" else newline ++ members fs in
  let text := head ++ body ++ "}" ++ newline in
  (if warnKeyword fs then
     genComment "Fields omitted because one or more of the identifiers is a Chapel keyword"
   else ret tt) >>
  (if warnSkippingAnonymousType fs then
     genComment "Anonymous union or struct was encountered within and skipped."
   else ret tt) >>
  print text.

Fixpoint genStructOrUnion (structOrUnion : node) (name : string)
         (isAnon : bool) {struct structOrUnion} : M unit :=
  own <~ (if name =? "" then lift (attr_name structOrUnion)
          else ret (Some name)) ;;
  match own with
  | None => ret tt
  | Some name =>
      let isUnion := is_Union (getStructOrUnionDef structOrUnion) in
      if Py.mem (Some name) chapelKeywords then
        genComment ("Unable to generate "
                    ++ (if isUnion then "union" else "struct")
                    ++ " '" ++ name ++ "' "
                    ++ "because its name is a Chapel keyword") >>
        print ""
      else
        let head := aggregateHead isUnion isAnon name in
        add_foundType name >>
        tds <~ get_typeDefs ;;
        fwd <~ lift (isStructOrUnionForwardDeclared tds structOrUnion) ;;
        if (fwd : bool) then print ""
        else
          match structOrUnion with
          | Struct _ (Some decls) | Union _ (Some decls) =>
              fs <~ fieldLoop (fun d => genStructOrUnion d "" false)
                      decls "" ;;
              finishAggregate head fs
          | Struct _ None | Union _ None => raise TypeError
          | _ => raise (AttributeError "decls")
          end
  end.

(** *** Variables and enumerations *)

Definition genVar (decl : node) : M unit :=
  name <~ lift (attr_name decl) ;;
  name <~ (if Py.mem name chapelKeywords
           then n <~ lift (str_of name) ;; ret (Some ("c2chapel_" ++ n))
           else ret name) ;;
  ty <~ lift (t <- attr_type decl ;; toChapelType t) ;;
  line <~ lift (n <- str_of name ;; t <- str_of ty ;;
                Ok ("extern var " ++ n ++ " : " ++ t ++ ";")) ;;
  print line >>
  print "".

Definition genEnum (decl : node) : M unit :=
  match decl with
  | Enum name values =>
      (if truthy name
       then n <~ lift (str_of name) ;; genComment ("Enum: " ++ n)
       else genComment "Enum: anonymous") >>
      match values with
      | None => raise (AttributeError "enumerators")
      | Some vals =>
          forM_ vals (fun v => print ("extern const " ++ v ++ " :c_int;"))
          >> print newline
      end
  | _ => ret tt
  end.

(** [node.children()], in pycparser's order. *)
Definition opt_list (o : option node) : list node :=
  match o with Some n => [n] | None => [] end.

Definition children (n : node) : list node :=
  match n with
  | Struct _ (Some ds) | Union _ (Some ds) => ds
  | TypeDecl _ _ t | PtrDecl _ t | Typename _ _ t | Typedef _ _ t => [t]
  | ArrayDecl t dim => t :: opt_list dim
  | FuncDecl a t =>
      (match a with Some ps => [ParamList ps] | None => [] end ++ [t])%list
  | ParamList ps => ps
  | Decl _ _ t i b => t :: (opt_list i ++ opt_list b)%list
  | FuncDef d => [d]
  | FileAST ext => ext
  | _ => []
  end.

(** The names under [val[1].enumerators], for [val] ranging over the
    children of [child]: an [Enum]'s only child is its enumerator list;
    no other node has an [enumerators] attribute. *)
Definition enumeratorsUnder (child : node) : result (list string) :=
  match child with
  | Enum _ (Some vals) => Ok vals
  | Enum _ None => Ok []
  | _ => match children child with
         | [] => Ok []
         | _ :: _ => Raise (AttributeError "enumerators")
         end
  end.

Definition is_Enum (n : node) : bool :=
  match n with Enum _ _ => true | _ => false end.

Definition genTypeEnum (decl : node) : M unit :=
  t <~ lift (attr_type decl) ;;
  if is_Enum t then
    forM_ (children decl)
      (fun child =>
         vals <~ lift (enumeratorsUnder child) ;;
         forM_ vals
           (fun v =>
              line <~ lift (dn <- attr_declname decl ;; d <- str_of dn ;;
                            Ok ("extern const " ++ v ++ " :" ++ d ++ ";")) ;;
              print line))
    >> print newline
  else ret tt.

(** *** The visitor *)

Definition visit_StructOrUnion (n : node) : M unit :=
  genStructOrUnion n "" false >>
  tds <~ get_typeDefs ;;
  fwd <~ lift (isStructOrUnionForwardDeclared tds n) ;;
  if (fwd : bool) then ret tt
  else name <~ lift (attr_name n) ;; set_typeDef name None.

Definition visit_Typedef (n : node) : M unit :=
  name <~ lift (attr_name n) ;;
  tds <~ get_typeDefs ;;
  if td_mem tds name then ret tt else set_typeDef name (Some n).

Definition visit_FuncDecl (n : node) : M unit := genFuncDecl n.

Definition visit_Decl (n : node) : M unit :=
  (if DEBUG then genComment "Evaluating node:" >> commentNode n
   else ret tt) >>
  forM_ (children n)
    (fun c =>
       match c with
       | Struct _ _ | Union _ _ => visit_StructOrUnion c
       | FuncDecl _ _ => visit_FuncDecl c
       | Enum _ _ => genEnum c
       | TypeDecl _ _ _ | PtrDecl _ _ | ArrayDecl _ _ => genVar n
       | _ => write (show_text n) >>
              raise (Exception "Unhandled declaration")
       end).

Definition visit_FuncDef (n : node) : M unit :=
  (if DEBUG then genComment "[debug]: Skipping FuncDef body" >>
                 commentNode n
   else ret tt) >>
  match n with
  | FuncDef d => visit_Decl d
  | _ => raise (AttributeError "decl")
  end.

(** [NodeVisitor.visit]: the method named after the node's class, or
    [generic_visit], which visits the children. *)
Fixpoint visit (n : node) {struct n} : M unit :=
  match n with
  | Typedef _ _ _ => visit_Typedef n
  | FuncDecl _ _ => visit_FuncDecl n
  | FuncDef _ => visit_FuncDef n
  | Decl _ _ _ _ _ => visit_Decl n
  | Struct _ (Some ds) | Union _ (Some ds) => forM_ ds (fun c => visit c)
  | TypeDecl _ _ t | PtrDecl _ t | Typename _ _ t => visit t
  | ArrayDecl t dim =>
      visit t >> match dim with Some d => visit d | None => ret tt end
  | ParamList ps => forM_ ps (fun c => visit c)
  | FileAST ext => forM_ ext (fun c => visit c)
  | _ => ret tt
  end.

(** *** Typedefs *)

Definition genTypeAlias (n : node) : M unit :=
  alias <~ lift (attr_name n) ;;
  ty <~ lift (attr_type n) ;;
  match ty with
  | PtrDecl _ _ | TypeDecl _ _ _ =>
      typeName <~ lift (toChapelType ty) ;;
      line <~ lift (a <- str_of alias ;;
                    if opt_eqb typeName ""
                    then Ok ("extern type " ++ a ++ ";")
                    else t <- str_of typeName ;;
                         Ok ("extern type " ++ a ++ " = " ++ t ++ ";")) ;;
      print line >>
      a <~ lift (str_of alias) ;;
      add_foundType a >>
      print ""
  | _ => ret tt
  end.

(** The two predicates return the aggregate node or [None]; only their
    truth value is used. *)
Fixpoint isPointerToStruct (n : node) : bool :=
  match n with
  | PtrDecl _ (TypeDecl _ _ (Struct _ _)) => true
  | PtrDecl _ t => isPointerToStruct t
  | _ => false
  end.

Fixpoint isPointerToUnion (n : node) : bool :=
  match n with
  | PtrDecl _ (TypeDecl _ _ (Union _ _)) => true
  | PtrDecl _ t => isPointerToUnion t
  | _ => false
  end.

Fixpoint insert_sorted (x : string) (l : list string) : list string :=
  match l with
  | [] => [x]
  | y :: l' => if String.leb x y then x :: l else y :: insert_sorted x l'
  end.

Definition sort_strings (l : list string) : list string :=
  fold_right insert_sorted [] l.

Fixpoint all_strings (keys : list (option string)) : option (list string) :=
  match keys with
  | [] => Some []
  | Some k :: rest =>
      match all_strings rest with
      | Some l => Some (k :: l)
      | None => None
      end
  | None :: _ => None
  end.

(** [sorted(defs)]: the keys in ascending order.  Ordering [None]
    against a string is a [TypeError]; a single key is compared with
    nothing. *)
Definition sorted (keys : list (option string))
  : result (list (option string)) :=
  match keys with
  | [] | [_] => Ok keys
  | _ => match all_strings keys with
         | Some l => Ok (map Some (sort_strings l))
         | None => Raise TypeError
         end
  end.

Definition is_some {A} (o : option A) : bool :=
  match o with Some _ => true | None => false end.

(** The body of the loop of [genTypedefs], lines 539-565. *)
Definition genTypedef (name : option string) (entry : option node)
  : M unit :=
  match entry with
  | None => ret tt
  | Some n =>
      ty <~ lift (attr_type n) ;;
      inner <~ lift (attr_type ty) ;;
      match inner with
      | Struct _ _ | Union _ _ =>
          let sn := inner in
          decls <~ lift (attr_decls sn) ;;
          if is_some decls then
            nm <~ lift (x <- attr_name n ;; str_of x) ;;
            genStructOrUnion sn nm true
          else
            tag <~ lift (attr_name sn) ;;
            found <~ get_foundTypes ;;
            if negb (Py.mem tag found) then
              let isUnion := is_Union (Some inner) in
              genComment ("Opaque " ++ (if isUnion then "union" else "struct")
                          ++ "?") >>
              key <~ lift (str_of name) ;;
              print ((if isUnion then "extern union " else "extern record ")
                     ++ key ++ " {};" ++ newline)
            else genTypeAlias n
      | _ =>
          if isPointerToStruct ty then
            genComment "Typedef'd pointer to struct" >>
            nm <~ lift (x <- attr_name n ;; str_of x) ;;
            print ("extern type " ++ nm ++ ";" ++ newline)
          else if isPointerToUnion ty then
            genComment "Typedef'd pointer to union" >>
            nm <~ lift (x <- attr_name n ;; str_of x) ;;
            print ("extern type " ++ nm ++ ";" ++ newline)
          else if is_Enum inner then
            nm <~ lift (x <- attr_name n ;; str_of x) ;;
            genComment (nm ++ " enum") >>
            print ("extern type " ++ nm ++ " = c_int;") >>
            genTypeEnum ty
          else genTypeAlias n
      end
  end.

Definition genTypedefs (defs : typedefs) : M unit :=
  names <~ lift (sorted (map fst defs)) ;;
  forM_ names
    (fun name =>
       match td_get defs name with
       | Some entry => genTypedef name entry
       | None => raise KeyError
       end).

(** Lines 568-572: [defs] is the module's [typeDefs] itself, which the
    loop updates. *)
Fixpoint collectIgnores (ignores : list string) (ignoreDefs : typedefs)
  : M typedefs :=
  match ignores with
  | [] => ret ignoreDefs
  | i :: rest =>
      defs <~ get_typeDefs ;;
      match td_get defs (Some i) with
      | Some entry =>
          set_typeDef (Some i) None >>
          collectIgnores rest (td_set ignoreDefs (Some i) entry)
      | None => collectIgnores rest ignoreDefs
      end
  end.

Definition numDefs (defs : typedefs) : nat :=
  List.length (filter (fun kv => is_some (snd kv)) defs).

Definition handleTypedefs (ignores : list string) : M unit :=
  ignoreDefs <~ collectIgnores ignores [] ;;
  defs <~ get_typeDefs ;;
  (if negb (numDefs defs =? 0)%nat then
     genComment "==== c2chapel typedefs ====" >>
     print "" >>
     genTypedefs defs
   else ret tt) >>
  (if negb (List.length ignoreDefs =? 0)%nat then
     genComment "c2chapel thinks these typedefs are from the fake headers:" >>
     print "/*" >>
     genTypedefs ignoreDefs >>
     print "*/"
   else ret tt).

(** *** Integer macros *)

Definition defineLine (name : string) : string :=
  "extern const " ++ name ++ " : int;".

(** The loop of lines 599-607 over the lines of the file; the result is
    the flag [first]. *)
Fixpoint emit_defines_loop (lines : list string) (first : bool) : M bool :=
  match lines with
  | [] => ret first
  | line :: rest =>
      match match_define line with
      | Some name =>
          (if first then
             genComment "#define'd integer literals:" >>
             genComment "Note: some of these may have been defined with an ifdef"
           else ret tt) >>
          print (defineLine name) >>
          emit_defines_loop rest false
      | None => emit_defines_loop rest first
      end
  end.

Definition emit_defines (lines : list string) : M unit :=
  first <~ emit_defines_loop lines true ;;
  if (first : bool) then ret tt
  else print "" >> genComment "End of #define'd integer literals" >>
       print "".

(** *** The run, lines 698-706 *)




End Translator.


(** ** The ignored typedef names, lines 625-644

    The file system is outside: [fake] is the text of the file
    [_fake_typedefs.h] of the substitute headers, line by line as the
    iteration over the open file yields it, or [None] when the directory
    or the file is not there. *)

Module PyStr.

(** [s.replace(old, new)] for a non-empty [old]: the occurrences are
    taken from the left and do not overlap; [skip] counts the characters
    of an occurrence just replaced that are still to be passed over. *)
Fixpoint replace_aux (old new s : string) (skip : nat) : string :=
  match s with
  | EmptyString => EmptyString
  | String c s' =>
      match skip with
      | S k => replace_aux old new s' k
      | O =>
          if String.prefix old s
          then new ++ replace_aux old new s' (String.length old - 1)
          else String c (replace_aux old new s' 0)
      end
  end.

Definition replace (old new s : string) : string := replace_aux old new s 0.

(** [sub in s] *)
Fixpoint contains (sub s : string) : bool :=
  String.prefix sub s
  || match s with
     | EmptyString => false
     | String _ s' => contains sub s'
     end.

(** [s.split()]: the words between runs of white space; [cur] holds the
    characters of the word being read. *)
Fixpoint split_ws_aux (s cur : string) : list string :=
  match s with
  | EmptyString => if cur =? "" then [] else [cur]
  | String c s' =>
      if is_space c
      then if cur =? "" then split_ws_aux s' ""
           else cur :: split_ws_aux s' ""
      else split_ws_aux s' (cur ++ String c EmptyString)
  end.

Definition split_ws (s : string) : list string := split_ws_aux s "".

(** [s.rstrip()] and [s.strip()] *)
Fixpoint rstrip (s : string) : string :=
  match s with
  | EmptyString => EmptyString
  | String c s' =>
      match rstrip s' with
      | EmptyString => if is_space c then EmptyString else String c EmptyString
      | r => String c r
      end
  end.

Definition strip (s : string) : string := rstrip (drop_while is_space s).

End PyStr.

(** [ret.add(x)] *)
Definition set_add (x : string) (s : list string) : list string :=
  if Py.mem (Some x) s then s else (s ++ [x])%list.

(** The body of the loop, lines 633-642: what the line adds to the set.
    [rhs.split()[-1]] is read only from a text that holds
    "typedef struct", which has words. *)
Definition ignoredName (line : string) : option string :=
  if Py.startswith "typedef" line then
    let rhs := PyStr.replace ";" "" line in
    let rhs := PyStr.replace "typedef int " "" rhs in
    let rhs := PyStr.replace "typedef uint32_t " "" rhs in
    let rhs := PyStr.replace "typedef _Bool " "" rhs in
    let rhs := PyStr.replace "typedef void* " "" rhs in
    let rhs := if PyStr.contains "typedef struct" rhs
               then Py.last (PyStr.split_ws rhs)
               else rhs in
    Some (PyStr.strip rhs)
  else None.

Fixpoint findIgnores_loop (lines : list string) (ret : list string)
  : list string :=
  match lines with
  | [] => ret
  | line :: rest =>
      findIgnores_loop rest
        (match ignoredName line with
         | Some x => set_add x ret
         | None => ret
         end)
  end.

(** The set is the list of its elements in the order of their first
    insertion; no use of it depends on the order. *)
Definition findIgnores (fake : option (list string)) : list string :=
  match fake with
  | None => []
  | Some lines => findIgnores_loop lines []
  end.
(** ** What a run leaves on standard output

    The definitions below name the pieces of output the theorems speak
    about. *)

(** The state after the chunks [out] have been written. *)
Definition emit (st : state) (out : list string) : state :=
  mkState (typeDefs st) (foundTypes st) (stdout st ++ out)%list.

(** The lines [genComment s] prints. *)
Definition commentLines (noComments : bool) (s : string) : list string :=
  if noComments then []
  else map (fun line => "// " ++ line ++ newline) (Py.split newline s).

(** What [print (externProc ...)] writes. *)
Definition declChunk (fnName args retType : string) : string :=
  externProc fnName args retType ++ newline.

(** The overload without the variadic marker, lines 356-360. *)
Definition emptyVarargsOverload (noComments : bool)
           (fnName args retType : string) : list string :=
  let listArgs := Py.split ", " args in
  if Py.last listArgs =? VARARGS_STR then
    (commentLines noComments "Overload for empty varargs"
     ++ [declChunk fnName (Py.join "," (Py.init listArgs)) retType])%list
  else [].

(** Whether the text holds the separator ", " of the formal lists. *)
Fixpoint hasSeparator (s : string) : bool :=
  String.prefix ", " s
  || match s with
     | EmptyString => false
     | String _ s' => hasSeparator s'
     end.

(** The innermost element text of a pointer to [T], whose resolution is
    [s]: a pointer to [void] is spelled with "void" itself. *)
Definition pointeeText (T : node) (s : string) : string :=
  match T with
  | TypeDecl _ _ _ =>
      match getDeclName T with
      | Ok (Some name) => if name =? "void" then "void" else s
      | _ => s
      end
  | _ => s
  end.

(** The normalisation of line 349-350. *)
Definition returnText (retType : option string) : option string :=
  if opt_eqb retType "" then Some "void" else retType.



(** ** Sample declarations *)

Definition named (names : list string) (dn : string) (q : list string)
  : node :=
  TypeDecl (Some dn) q (IdentifierType names).

Definition param (name : string) (ty : node) : node :=
  Decl (Some name) [] ty None None.


(** [int g(int *p, ...);] *)
Definition g_variadic : node :=
  FuncDecl (Some [param "p" (PtrDecl [] (named ["int"] "p" []));
                  EllipsisParam])
           (named ["int"] "g" []).


(** An empty node dump, to run the samples. *)
Definition noDump : node -> string := fun _ => "".

(** ** Aggregates *)

Definition aggregate (isUnion : bool) (tag : option string)
           (decls : option (list node)) : node :=
  if isUnion then Union tag decls else Struct tag decls.

(** The state after [foundTypes.add(name)]. *)
Definition register (st : state) (name : string) : state :=
  mkState (typeDefs st)
          (if Py.mem (Some name) (foundTypes st) then foundTypes st
           else (foundTypes st ++ [name])%list)
          (stdout st).


(** The name an aggregate is emitted under: the explicit one, or else the
    tag. *)
Definition emittedName (explicit : string) (tag : option string)
  : option string :=
  if explicit =? "" then tag else Some explicit.






Definition field (name : string) (ty : node) : node :=
  Decl (Some name) [] (TypeDecl (Some name) [] ty) None None.


(** [struct S { int a; int type; int c; };] *)
Definition keyword_struct : node :=
  Struct (Some "S")
    (Some [field "a" (IdentifierType ["int"]);
           field "type" (IdentifierType ["int"]);
           field "c" (IdentifierType ["int"])]).




(** ** Integer macros *)

(** The names of the macros the scan of [emit_defines] finds, one entry
    per matching line, in line order. *)
Fixpoint definedNames (lines : list string) : list string :=
  match lines with
  | [] => []
  | line :: rest =>
      match match_define line with
      | Some name => name :: definedNames rest
      | None => definedNames rest
      end
  end.

(** What [print (defineLine name)] writes. *)
Definition defineChunk (name : string) : string := defineLine name ++ newline.

(** What [emit_defines] writes. *)
Definition definesOutput (nc : bool) (lines : list string) : list string :=
  match definedNames lines with
  | [] => []
  | names =>
      (commentLines nc "#define'd integer literals:"
       ++ commentLines nc "Note: some of these may have been defined with an ifdef"
       ++ map defineChunk names
       ++ [newline]
       ++ commentLines nc "End of #define'd integer literals"
       ++ [newline])%list
  end.

(** [#define ANSWER 42] on a line of its own. *)
Definition answer_line : string := "#define ANSWER 42" ++ newline.

(** ** Typedefs *)







(** ** Further statement-level definitions *)

(** The array type with the dimensions [dims], outermost first, over the
    element type [t]. *)
Fixpoint arrayOf (dims : list (option node)) (t : node) : node :=
  match dims with
  | [] => t
  | d :: ds => ArrayDecl (arrayOf ds t) d
  end.

(** [n] levels of pointer over [t]. *)
Fixpoint pointerTo (quals : list (list string)) (t : node) : node :=
  match quals with
  | [] => t
  | q :: qs => PtrDecl q (pointerTo qs t)
  end.


(** Whether the text holds a line break. *)
Fixpoint hasNewline (s : string) : bool :=
  match s with
  | EmptyString => false
  | String c s' => (code c =? 10)%nat || hasNewline s'
  end.

(** [int vprintf(const char *fmt, va_list ap);] *)
Definition vprintf_decl : node :=
  FuncDecl (Some [param "fmt" (PtrDecl [] (named ["char"] "fmt" ["const"]));
                  param "ap" (named ["va_list"] "ap" [])])
           (named ["int"] "vprintf" []).

Definition is_aggregate (n : node) : bool :=
  match n with Struct _ _ | Union _ _ => true | _ => false end.

(** [void use(pair_t p);] after [typedef struct pair { ... } pair_t;] *)
Definition pair_typedefs : typedefs :=
  [(Some "pair_t",
    Some (Typedef "pair_t" []
            (TypeDecl (Some "pair_t") []
               (Struct (Some "pair")
                  (Some [field "a" (IdentifierType ["int"])])))))].

(** All characters of the text are in the class [p]. *)
Fixpoint allChars (p : ascii -> bool) (s : string) : bool :=
  match s with
  | EmptyString => true
  | String c s' => p c && allChars p s'
  end.

(** The text is empty or starts with a character outside the class [p]. *)
Definition startsOutside (p : ascii -> bool) (s : string) : bool :=
  match s with
  | EmptyString => true
  | String c _ => negb (p c)
  end.

(** The shape of a line the macro scan accepts: blanks, "#define", blanks,
    a name, blanks, digits, and the end of the line. *)
Definition defineShape (line name : string) : Prop :=
  exists ws0 ws1 ws2 digits tail,
    line = ws0 ++ "#define" ++ ws1 ++ name ++ ws2 ++ digits ++ tail
    /\ allChars is_space ws0 = true
    /\ allChars is_space ws1 = true /\ ws1 <> ""
    /\ allChars is_ident name = true /\ name <> ""
    /\ allChars is_space ws2 = true /\ ws2 <> ""
    /\ allChars is_digit digits = true /\ digits <> ""
    /\ (tail = "" \/ tail = newline).

(** ** Frames *)

(** A computation that leaves the typedef table alone, forgets no found
    type and only adds to the output. *)
Definition framed {A} (m : M A) : Prop :=
  forall st,
    typeDefs (snd (m st)) = typeDefs st
    /\ (forall x, In x (foundTypes st) -> In x (foundTypes (snd (m st))))
    /\ exists out, stdout (snd (m st)) = (stdout st ++ out)%list.

(** The nesting depth of aggregate definitions, through the declarators
    [getStructOrUnionDef] looks through. *)
Fixpoint aggDepth (n : node) : nat :=
  match n with
  | Struct _ (Some ds) | Union _ (Some ds) =>
      S ((fix deepest (l : list node) : nat :=
            match l with
            | [] => 0
            | d :: l' => Nat.max (aggDepth d) (deepest l')
            end) ds)
  | Decl _ _ t _ _ | TypeDecl _ _ t | PtrDecl _ t => aggDepth t
  | _ => 0
  end.

Definition deepest (l : list node) : nat :=
  fold_right (fun d acc => Nat.max (aggDepth d) acc) 0 l.

(** The classes [visit_Decl] has a branch for. *)
Definition dispatched (c : node) : bool :=
  match c with
  | Struct _ _ | Union _ _ | FuncDecl _ _ | Enum _ _
  | TypeDecl _ _ _ | PtrDecl _ _ | ArrayDecl _ _ => true
  | _ => false
  end.

(** The classes of the type of a variable, for which [visit_Decl] calls
    [genVar]. *)
Definition variableType (c : node) : bool :=
  match c with
  | TypeDecl _ _ _ | PtrDecl _ _ | ArrayDecl _ _ => true
  | _ => false
  end.

(** An array type or a function type. *)
Definition arrayOrFunction (ty : node) : bool :=
  match ty with
  | ArrayDecl _ _ | FuncDecl _ _ => true
  | _ => false
  end.

(** [int limit = 3;] at file level. *)
Definition initialised_variable : node :=
  Decl (Some "limit") [] (named ["int"] "limit" [])
       (Some (Constant "3")) None.

(** The name in the comment over an enumeration. *)
Definition enumLabel (tag : option string) : string :=
  match tag with
  | Some (String c s) => String c s
  | _ => "anonymous"
  end.

(** ** The ignored typedef names *)

(** Whether the character occurs in the text. *)
Fixpoint hasChar (c : ascii) (s : string) : bool :=
  match s with
  | EmptyString => false
  | String d s' => Ascii.eqb c d || hasChar c s'
  end.

(** The number of blanks of the text. *)
Fixpoint blanks (s : string) : nat :=
  match s with
  | EmptyString => 0
  | String d s' => (if Ascii.eqb " " d then 1 else 0) + blanks s'
  end.

(** [p] differs from [b] at a position both have. *)
Fixpoint clash (p b : string) : bool :=
  match p, b with
  | String x p', String y b' => if Ascii.eqb x y then clash p' b' else true
  | _, _ => false
  end.

(** [p] differs from every non-empty end of [b] at a position both
    have: no occurrence of [p] starts in [b], whatever follows [b]. *)
Fixpoint clashAll (p b : string) : bool :=
  match b with
  | EmptyString => true
  | String _ b' => clash p b && clashAll p b'
  end.

(** The four declaration heads that [findIgnores] takes away. *)
Definition simpleHeads : list string :=
  ["typedef int "; "typedef uint32_t "; "typedef _Bool "; "typedef void* "].

(** Two lines of the file of substitute typedefs. *)
Definition fake_lines : list string :=
  ["typedef int size_t;" ++ newline;
   "typedef struct __FILE FILE;" ++ newline].
(** * Properties *)

(** ** The embedding and the source

    Two functions of the embedding are written by recursion on the tree
    where the source goes through a helper; they agree with the source's
    wording. *)

(** Lines 410-412: [genInner] translates the definition that
    [getStructOrUnionDef] finds. *)
Lemma genInner_getStructOrUnionDef (rec : node -> M unit) (decl : node) :
  genInner rec decl
  = match getStructOrUnionDef decl with
    | Some inner => rec inner
    | None => ret tt
    end.
Proof.
  induction decl; cbn [genInner getStructOrUnionDef]; try reflexivity;
    try assumption;
    match goal with
    | d : option (list node) |- _ => destruct d; reflexivity
    end.
Qed.

Lemma bind_ret_r (m : M unit) (st : state) : (m >> ret tt) st = m st.
Proof. unfold bind, ret. destruct (m st) as [[[]|e] st']; reflexivity. Qed.

(** [generic_visit]: a node of a class without a method of its own is
    visited by visiting its children. *)
Lemma visit_generic (nc dbg : bool) (show : node -> string) (n : node)
      (st : state) :
  match n with
  | Typedef _ _ _ | FuncDecl _ _ | FuncDef _ | Decl _ _ _ _ _ => False
  | _ => True
  end ->
  visit nc dbg show n st = forM_ (children n) (visit nc dbg show) st.
Proof.
  destruct n as [ |nm [ds|]|nm [ds|]| | | |t [d|]| | | | | | | | | | ];
    intros H; try contradiction; cbn [visit children opt_list];
    unfold forM_; cbn [mapM_]; try reflexivity;
    try (now rewrite bind_ret_r).
  unfold bind, ret. destruct (visit nc dbg show t st) as [[[]|e] st'];
    [|reflexivity].
  destruct (visit nc dbg show d st') as [[[]|e] st'']; reflexivity.
Qed.

(** ** Strings *)

Lemma append_nil_r (s : string) : s ++ "" = s.
Proof. induction s as [|c s IH]; cbn; [reflexivity|now rewrite IH]. Qed.

Lemma append_assoc (a b c : string) : (a ++ b) ++ c = a ++ (b ++ c).
Proof. induction a as [|x a IH]; cbn; [reflexivity|now rewrite IH]. Qed.

Lemma length_append (a b : string) :
  String.length (a ++ b) = String.length a + String.length b.
Proof. induction a as [|c a IH]; cbn; [reflexivity|now rewrite IH]. Qed.

Lemma append_cancel_r (a b t : string) : a ++ t = b ++ t -> a = b.
Proof.
  revert b. induction a as [|c a IH]; intros [|d b] H; cbn in H.
  - reflexivity.
  - apply (f_equal String.length) in H. cbn in H.
    rewrite length_append in H. lia.
  - apply (f_equal String.length) in H. cbn in H.
    rewrite length_append in H. lia.
  - injection H as -> H. now rewrite (IH b H).
Qed.

Lemma prefix_sep_cons (c : ascii) (x : string) :
  String.prefix ", " (String c x) = true ->
  c = ","%char /\ exists y, x = String " "%char y.
Proof.
  cbn [String.prefix]. destruct (ascii_dec "," c) as [<-|]; [|discriminate].
  destruct x as [|d y]; [discriminate|]. cbn [String.prefix].
  destruct (ascii_dec " " d) as [<-|]; [|discriminate].
  intros _. split; [reflexivity|now exists y].
Qed.

(** A piece without separator is read whole, when what follows is the
    end of the text or a separator. *)
Lemma split_aux_piece (s : string) :
  forall (cur tail : string),
    hasSeparator s = false ->
    (tail = "" \/ exists rest, tail = ", " ++ rest) ->
    Py.split_aux ", " (s ++ tail) 0 cur = Py.split_aux ", " tail 0 (cur ++ s).
Proof.
  induction s as [|c s IH]; intros cur tail Hs Ht.
  - cbn [append]. now rewrite append_nil_r.
  - cbn [hasSeparator] in Hs. apply orb_false_iff in Hs as [Hp Hs].
    cbn [append Py.split_aux].
    destruct (String.prefix ", " (String c (s ++ tail))) eqn:Hpre.
    + exfalso. apply prefix_sep_cons in Hpre as [-> [y Hy]].
      destruct s as [|d s].
      * destruct Ht as [->|[rest ->]]; cbn in Hy; discriminate Hy.
      * cbn in Hy. injection Hy as -> _. cbn in Hp.
        destruct s; discriminate Hp.
    + rewrite (IH _ tail Hs Ht), append_assoc. reflexivity.
Qed.

Lemma prefix_sep (rest : string) : String.prefix ", " (", " ++ rest) = true.
Proof.
  cbn [append String.prefix].
  destruct (ascii_dec "," ","); [|contradiction].
  destruct (ascii_dec " " " "); [|contradiction].
  now destruct rest.
Qed.

Lemma split_aux_sep (rest cur : string) :
  Py.split_aux ", " (", " ++ rest) 0 cur
  = cur :: Py.split_aux ", " rest 0 "".
Proof.
  change (", " ++ rest) with (String "," (String " " rest)) at 1.
  cbn [Py.split_aux].
  change (String "," (String " " rest)) with (", " ++ rest).
  now rewrite prefix_sep.
Qed.

Lemma split_join (l : list string) :
  Forall (fun s => hasSeparator s = false) l ->
  forall (x cur : string),
    hasSeparator x = false ->
    Py.split_aux ", " (Py.join ", " (x :: l)) 0 cur = (cur ++ x) :: l.
Proof.
  induction 1 as [|y l Hy _ IH]; intros x cur Hx.
  - cbn [Py.join String.concat].
    rewrite <- (append_nil_r x) at 1.
    rewrite split_aux_piece; [reflexivity|exact Hx|now left].
  - change (Py.join ", " (x :: y :: l))
      with (x ++ ", " ++ Py.join ", " (y :: l)).
    rewrite split_aux_piece; [|exact Hx|right; eauto].
    rewrite split_aux_sep. f_equal. now rewrite (IH y "" Hy).
Qed.

Lemma removelast_snoc {A} (l : list A) (x : A) : removelast (l ++ [x]) = l.
Proof. now rewrite removelast_app, app_nil_r. Qed.

Lemma last_snoc {A} (l : list A) (x d : A) : List.last (l ++ [x]) d = x.
Proof. apply last_last. Qed.

(** The formals [fs], followed by the variadic marker, come back from the
    joined text. *)
Lemma split_variadic_formals (fs : list string) :
  Forall (fun s => hasSeparator s = false) fs ->
  let args := Py.join ", " (fs ++ [VARARGS_STR]) in
  Py.last (Py.split ", " args) = VARARGS_STR
  /\ Py.init (Py.split ", " args) = fs.
Proof.
  intros Hfs. cbv zeta. unfold Py.split, Py.last, Py.init.
  assert (Hall : Forall (fun s => hasSeparator s = false)
                        (fs ++ [VARARGS_STR])).
  { apply Forall_app. split; [exact Hfs|]. now repeat constructor. }
  destruct fs as [|f fs].
  - cbn. split; reflexivity.
  - cbn [app] in Hall |- *. inversion Hall as [|? ? Hf Hrest]; subst.
    rewrite (split_join _ Hrest f "" Hf). cbn [append].
    change (f :: (fs ++ [VARARGS_STR])%list)
      with ((f :: fs) ++ [VARARGS_STR])%list.
    now rewrite last_snoc, removelast_snoc.
Qed.

(** ** Running the monad *)

Lemma emit_nil (st : state) : emit st [] = st.
Proof. destruct st; unfold emit; cbn. now rewrite app_nil_r. Qed.

Lemma emit_emit (st : state) (a b : list string) :
  emit (emit st a) b = emit st (a ++ b).
Proof. unfold emit; cbn. now rewrite app_assoc. Qed.

Lemma print_run (s : string) (st : state) :
  print s st = (Ok tt, emit st [s ++ newline]).
Proof. reflexivity. Qed.

Lemma forM_print (f : string -> string) (l : list string) (st : state) :
  forM_ l (fun x => print (f x)) st
  = (Ok tt, emit st (map (fun x => f x ++ newline) l)).
Proof.
  unfold forM_. revert st.
  induction l as [|x l IH]; intros st; cbn [mapM_ map].
  - now rewrite emit_nil.
  - unfold bind. rewrite print_run, IH, emit_emit. reflexivity.
Qed.

Lemma genComment_run (nc : bool) (s : string) (st : state) :
  genComment nc s st = (Ok tt, emit st (commentLines nc s)).
Proof.
  unfold genComment, commentLines. destruct nc.
  - now rewrite emit_nil.
  - apply (forM_print (fun line => "// " ++ line)).
Qed.

Lemma lift_Ok {A} (show : node -> string) (a : A) (st : state) :
  lift show (Ok a) st = (Ok a, st).
Proof. reflexivity. Qed.


Lemma add_foundType_run (name : string) (st : state) :
  add_foundType name st = (Ok tt, register st name).
Proof. reflexivity. Qed.

Lemma emit_register (st : state) (name : string) (out : list string) :
  emit (register st name) out = register (emit st out) name.
Proof. reflexivity. Qed.

(** ** The type resolver *)

Lemma toChapelType_TypeDecl (dn : option string) (tq : list string) (ty : node) :
  toChapelType (TypeDecl dn tq ty) =
  match getDeclName (TypeDecl dn tq ty) with
  | Ok (Some name) =>
      match dict_get c2chapel name with
      | Some v => Ok (Some v)
      | None => Ok (Some name)
      end
  | Ok None => Ok None
  | Raise (Exception msg) => Raise (Exception ("toChapelType: " ++ msg))
  | Raise e => Raise e
  end.
Proof. reflexivity. Qed.

Lemma toChapelType_ptr (q : list string) (T : node) (s : string) :
  toChapelType T = Ok (Some s) ->
  toChapelType (PtrDecl q T) =
  match T with
  | FuncDecl _ _ => Ok (Some "c_fn_ptr")
  | _ => tq <- attr_quals T ;; Ok (Some (ptrWrap tq (pointeeText T s)))
  end.
Proof.
  intros HT.
  destruct T as [ | | | |dn tq ty| | | | | | | | | | | | ];
    try (cbn in HT; discriminate);
    try (cbn in HT |- *; rewrite ?HT; reflexivity).
  (* T is a TypeDecl: the pointer may be one to char or to void *)
  rewrite toChapelType_TypeDecl in HT.
  cbn [toChapelType isPointerTo pointeeText attr_quals rbind].
  destruct (getDeclName (TypeDecl dn tq ty)) as [[name|]|e];
    try discriminate; [|destruct e; discriminate].
  cbn [rbind opt_eqb].
  destruct (String.eqb_spec name "char") as [->|Hc].
  - cbn in HT. injection HT as <-. reflexivity.
  - destruct (String.eqb_spec name "void") as [->|Hv].
    + reflexivity.
    + cbn [attr_type attr_quals rbind str_of].
      rewrite HT. reflexivity.
Qed.

(** C3.  The registry has no floating-point entry for the
    extended-precision type: [long double] resolves to the integer type
    [c_longlong], whatever the declared name and qualifiers, although the
    registry maps [double] to [c_double] and [float] to [c_float]. *)
Theorem long_double_resolves_to_c_longlong :
  forall (dn : option string) (q : list string),
    toChapelType (TypeDecl dn q (IdentifierType ["long"; "double"]))
    = Ok (Some "c_longlong")
    /\ dict_get c2chapel "long long" = Some "c_longlong"
    /\ dict_get c2chapel "double" = Some "c_double"
    /\ dict_get c2chapel "float" = Some "c_float".
Proof. intros dn q. repeat split. Qed.




(** ** The function signature emitter *)

(** The output of [genFuncDecl] on a function that passes its two guards:
    the reference-style declaration, the pointer-style one when its formals
    differ, and the overload without the variadic marker. *)
Lemma genFuncDecl_run (nc : bool) (show : node -> string) (fn : node)
      (st : state) (rt : option string) (name args ptrArgs r : string) :
  (t <- attr_type fn ;; toChapelType t) = Ok rt ->
  (t <- attr_type fn ;; getFunctionName t) = Ok (Some name) ->
  (pl <- attr_args fn ;; computeArgs (typeDefs st) pl) = Ok (args, ptrArgs) ->
  Py.mem (Some name) chapelKeywords = false ->
  match_va_list args = false ->
  returnText rt = Some r ->
  genFuncDecl nc show fn st
  = (Ok tt,
     emit st (declChunk name args r
              :: (if ptrArgs =? args then [] else [declChunk name ptrArgs r])
              ++ emptyVarargsOverload nc name args r)).
Proof.
  intros Hrt Hname Hargs Hkw Hva Hr.
  unfold genFuncDecl, bind, get_typeDefs.
  rewrite Hrt, lift_Ok, Hname, lift_Ok, Hargs, lift_Ok, Hkw, Hva.
  unfold returnText in Hr. rewrite Hr. cbn [str_of].
  rewrite !lift_Ok, print_run.
  unfold emptyVarargsOverload, declChunk.
  destruct (ptrArgs =? args); cbn [negb];
    destruct (Py.last (Py.split ", " args) =? VARARGS_STR);
    unfold ret; rewrite ?print_run, ?genComment_run, ?print_run, ?emit_emit;
    reflexivity.
Qed.



(** C8, as the code has it.  When the reference-style formal list of a
    generated function ends with the variadic marker, the output ends with
    one further declaration: the reference-style formals without the
    marker, joined by "," alone.  It is the only declaration without the
    marker, also when a pointer-style variadic declaration is emitted.
    (Second part: the text the source splits is the joined list of
    formals, and the split gives the formals back.) *)
Theorem empty_varargs_overload_of_reference_formals :
  (forall (nc : bool) (show : node -> string) (fn : node) (st : state)
          (rt : option string) (name args ptrArgs r : string),
      (t <- attr_type fn ;; toChapelType t) = Ok rt ->
      (t <- attr_type fn ;; getFunctionName t) = Ok (Some name) ->
      (pl <- attr_args fn ;; computeArgs (typeDefs st) pl)
      = Ok (args, ptrArgs) ->
      Py.mem (Some name) chapelKeywords = false ->
      match_va_list args = false ->
      returnText rt = Some r ->
      Py.last (Py.split ", " args) = VARARGS_STR ->
      genFuncDecl nc show fn st
      = (Ok tt,
         emit st ((declChunk name args r
                   :: (if ptrArgs =? args then []
                       else [declChunk name ptrArgs r]))
                  ++ commentLines nc "Overload for empty varargs"
                  ++ [declChunk name
                        (Py.join "," (Py.init (Py.split ", " args))) r])))
  /\
  (forall fs : list string,
      Forall (fun f => hasSeparator f = false) fs ->
      let args := Py.join ", " (fs ++ [VARARGS_STR]) in
      Py.last (Py.split ", " args) = VARARGS_STR
      /\ Py.join "," (Py.init (Py.split ", " args)) = Py.join "," fs).
Proof.
  split.
  - intros nc show fn st rt name args ptrArgs r
           Hrt Hname Hargs Hkw Hva Hr Hl.
    rewrite (genFuncDecl_run nc show fn st rt name args ptrArgs r)
      by assumption.
    unfold emptyVarargsOverload. rewrite Hl, String.eqb_refl.
    reflexivity.
  - intros fs Hfs. cbv zeta.
    destruct (split_variadic_formals fs Hfs) as [Hlast Hinit].
    split; [exact Hlast|now rewrite Hinit].
Qed.

Lemma empty_varargs_overload_of_reference_formals_witness :
  genFuncDecl false noDump g_variadic initial
  = (Ok tt,
     emit initial
       [declChunk "g" "ref p : c_int, c__varargs ..." "c_int";
        declChunk "g" "p : c_ptr(c_int), c__varargs ..." "c_int";
        "// Overload for empty varargs" ++ newline;
        declChunk "g" "ref p : c_int" "c_int"])
  /\ Py.join "," (Py.init (Py.split ", " "ref p : c_int, c__varargs ..."))
     = "ref p : c_int".
Proof.
  split.
  - exact (proj1 empty_varargs_overload_of_reference_formals false noDump
             g_variadic initial (Some "c_int") "g"
             "ref p : c_int, c__varargs ..."
             "p : c_ptr(c_int), c__varargs ..." "c_int"
             eq_refl eq_refl eq_refl eq_refl eq_refl eq_refl eq_refl).
  - refine (proj2 (proj2 empty_varargs_overload_of_reference_formals
                     ["ref p : c_int"] _)).
    repeat constructor.
Defined.

(** C8, as the claim has it, fails for [int g(int *p, ...)]: the
    pointer-style variadic declaration is emitted, and the declaration that
    differs from it by the removal of the marker is not. *)
Lemma pointer_style_variadic_has_no_marker_free_overload :
  let out := stdout (snd (genFuncDecl false noDump g_variadic initial)) in
  In (declChunk "g" "p : c_ptr(c_int), c__varargs ..." "c_int") out
  /\ ~ In (declChunk "g" "p : c_ptr(c_int)" "c_int") out.
Proof.
  cbv zeta. split.
  - vm_compute. right. left. reflexivity.
  - vm_compute. intros [H|[H|[H|[H|[]]]]]; discriminate H.
Qed.








(** ** The aggregate emitter *)





(** A definition with members, emitted under a name that is no keyword:
    the name is registered, the field loop runs, the text is printed. *)
Lemma genStructOrUnion_defined (nc : bool) (show : node -> string)
      (isUnion : bool) (tag : option string) (d : node) (ds : list node)
      (explicit name : string) (isAnon : bool) (st : state) :
  emittedName explicit tag = Some name ->
  Py.mem (Some name) chapelKeywords = false ->
  genStructOrUnion nc show (aggregate isUnion tag (Some (d :: ds)))
                   explicit isAnon st
  = match fieldLoop show (fun d => genStructOrUnion nc show d "" false)
            (d :: ds) "" (register st name) with
    | (Ok fs, st') =>
        finishAggregate nc (aggregateHead isUnion isAnon name) fs st'
    | (Raise e, st') => (Raise e, st')
    end.
Proof.
  unfold emittedName. intros Hname Hkw.
  assert (Hfwd : forall tg tds,
             isStructOrUnionForwardDeclared tds
               (aggregate isUnion tg (Some (d :: ds))) = Ok false).
  { intros tg tds. unfold isStructOrUnionForwardDeclared, isStructOrUnionType.
    destruct isUnion, (List.length tds); reflexivity. }
  destruct isUnion; cbn [aggregate] in Hfwd |- *;
    cbn [genStructOrUnion];
    (destruct (explicit =? "");
     [ cbn [attr_name]; unfold bind at 1; rewrite lift_Ok, Hname
     | unfold bind at 1; unfold ret at 1; injection Hname as -> ]);
    cbn [getStructOrUnionDef is_Union]; rewrite Hkw;
    unfold bind at 1; rewrite add_foundType_run;
    unfold bind at 1; unfold get_typeDefs at 1;
    unfold bind at 1; rewrite Hfwd, lift_Ok; reflexivity.
Qed.









(** ** Reserved words *)







(** ** The macro scan *)

Lemma emit_defines_loop_run (nc : bool) (lines : list string) :
  forall (first : bool) (st : state),
    emit_defines_loop nc lines first st
    = (Ok (first && match definedNames lines with [] => true | _ => false end),
       emit st
         (match definedNames lines with
          | [] => []
          | names =>
              (if first
               then commentLines nc "#define'd integer literals:"
                    ++ commentLines nc "Note: some of these may have been defined with an ifdef"
               else [])
              ++ map defineChunk names
          end)).
Proof.
  induction lines as [|line rest IH]; intros first st;
    cbn [emit_defines_loop definedNames].
  - unfold ret. now rewrite emit_nil, andb_true_r.
  - destruct (match_define line) as [name|]; [|apply IH].
    unfold bind.
    destruct first; unfold ret;
      rewrite ?genComment_run, print_run, IH, !emit_emit;
      destruct (definedNames rest); cbn [andb map app];
      rewrite <- ?app_assoc; reflexivity.
Qed.

Lemma emit_defines_run (nc : bool) (lines : list string) (st : state) :
  emit_defines nc lines st = (Ok tt, emit st (definesOutput nc lines)).
Proof.
  unfold emit_defines, definesOutput, bind.
  rewrite emit_defines_loop_run.
  destruct (definedNames lines) as [|name names]; cbn [andb].
  - reflexivity.
  - rewrite print_run, genComment_run, print_run, !emit_emit, <- !app_assoc.
    reflexivity.
Qed.

Lemma defineChunk_inj (n m : string) :
  defineChunk n = defineChunk m -> n = m.
Proof.
  unfold defineChunk, defineLine. intros H. apply append_cancel_r in H.
  cbn in H. injection H as H. now apply append_cancel_r in H.
Qed.

Lemma count_commentLines (nc : bool) (s name : string) :
  count_occ string_dec (commentLines nc s) (defineChunk name) = 0.
Proof.
  unfold commentLines. destruct nc; [reflexivity|].
  induction (Py.split newline s) as [|l ls IH]; cbn [map count_occ].
  - reflexivity.
  - destruct (string_dec _ _) as [E|_]; [discriminate E|exact IH].
Qed.

Lemma count_defineChunks (names : list string) (name : string) :
  count_occ string_dec (map defineChunk names)
            (defineChunk name)
  = count_occ string_dec names name.
Proof.
  induction names as [|n names IH]; cbn [map count_occ]; [reflexivity|].
  destruct (string_dec (defineChunk n) (defineChunk name))
    as [E|E], (string_dec n name) as [E'|E'].
  - now rewrite IH.
  - now apply defineChunk_inj in E.
  - now subst.
  - exact IH.
Qed.

(** C9, as the code has it.  The constant declaration of a macro name is
    written once for every line of the file that defines the name as an
    integer literal: the scan keeps no record of the names it has seen.
    A name that one line defines is declared once; a repeated line repeats
    the declaration. *)
Theorem define_emitted_once_per_line :
  forall (nc : bool) (lines : list string) (st : state) (name : string),
    emit_defines nc lines st = (Ok tt, emit st (definesOutput nc lines))
    /\ count_occ string_dec (definesOutput nc lines)
                 (defineChunk name)
       = count_occ string_dec (definedNames lines) name.
Proof.
  intros nc lines st name. split; [apply emit_defines_run|].
  unfold definesOutput.
  destruct (definedNames lines) as [|n names] eqn:Hn; [reflexivity|].
  rewrite !count_occ_app, !count_commentLines, count_defineChunks.
  cbn [count_occ]. 
  destruct (string_dec newline (defineChunk name)) as [E|_];
    [discriminate E|].
  lia.
Qed.

(** C9, as the claim has it, fails when the line [#define ANSWER 42]
    occurs twice: the declaration of [ANSWER] is written twice. *)
Lemma repeated_define_emitted_twice :
  match_define answer_line = Some "ANSWER"
  /\ stdout (snd (emit_defines true [answer_line; answer_line] initial))
     = ["extern const ANSWER : int;" ++ newline;
        "extern const ANSWER : int;" ++ newline;
        newline; newline].
Proof. split; reflexivity. Qed.

(** ** The typedef pass *)













(** * Further properties of the code *)

(** ** The type resolver *)

Lemma toChapelType_array_of_array (t : node) (d d' : option node) :
  toChapelType (ArrayDecl (ArrayDecl t d) d') = toChapelType (ArrayDecl t d).
Proof.
  assert (H : forall r,
             toChapelType (ArrayDecl t d) = r ->
             toChapelType (ArrayDecl (ArrayDecl t d) d')
             = (eltType <- r ;;
                match eltType with
                | Some e => Ok (Some e)
                | None => Ok None
                end)) by (intros r <-; reflexivity).
  rewrite (H _ eq_refl).
  destruct (toChapelType (ArrayDecl t d)) as [[e|]|e]; reflexivity.
Qed.

(** X1.  An array of several dimensions resolves to what its innermost
    array resolves to: only one level of decay is applied, whatever the
    number and the sizes of the outer dimensions. *)
Theorem toChapelType_multidimensional_array :
  forall (dims : list (option node)) (t : node) (d : option node),
    toChapelType (arrayOf dims (ArrayDecl t d)) = toChapelType (ArrayDecl t d).
Proof.
  induction dims as [|d' dims IH]; intros t d; cbn [arrayOf].
  - reflexivity.
  - destruct dims as [|d'' dims].
    + cbn [arrayOf]. apply toChapelType_array_of_array.
    + cbn [arrayOf] in IH |- *.
      rewrite toChapelType_array_of_array. apply IH.
Qed.

Lemma ptrWrap_not_empty (q : list string) (e : string) : ptrWrap q e <> "".
Proof. unfold ptrWrap. destruct (has_const q); discriminate. Qed.

(** X2.  The resolution of a pointer type, when it returns, returns a
    type text, and never the empty one: [None] and the void marker come
    from declarators only. *)
Theorem toChapelType_pointer_is_text :
  forall (q : list string) (t : node) (r : option string),
    toChapelType (PtrDecl q t) = Ok r ->
    exists s, r = Some s /\ s <> "".
Proof.
  intros q t r. cbn [toChapelType].
  destruct (isPointerTo (PtrDecl q t) "char") as [[|]|e]; cbn [rbind];
    [| |discriminate].
  - cbn [attr_type rbind].
    destruct (attr_quals t) as [tq|e]; cbn [rbind]; [|discriminate].
    intros [= <-]. eexists. split; [reflexivity|apply ptrWrap_not_empty].
  - assert (Hgen :
      (v <- isPointerTo (PtrDecl q t) "void" ;;
       eltType <- (if (v : bool) then Ok (Some "void") else toChapelType t) ;;
       tq <- attr_quals t ;;
       e <- str_of eltType ;;
       Ok (Some (ptrWrap tq e))) = Ok r ->
      exists s, r = Some s /\ s <> "").
    { destruct (isPointerTo (PtrDecl q t) "void") as [v|e]; [|discriminate].
      cbn [rbind].
      destruct (if v then Ok (Some "void") else toChapelType t) as [elt|e];
        [|discriminate].
      cbn [rbind]. destruct (attr_quals t) as [tq|e]; [|discriminate].
      cbn [rbind]. destruct (str_of elt) as [e'|e]; [|discriminate].
      cbn [rbind]. intros [= <-].
      eexists. split; [reflexivity|apply ptrWrap_not_empty]. }
    destruct t; try exact Hgen.
    intros [= <-]. eexists. split; [reflexivity|discriminate].
Qed.

Lemma toChapelType_pointer_is_text_witness :
  exists s, Some "c_ptr(c_int)" = Some s /\ s <> "".
Proof.
  exact (toChapelType_pointer_is_text [] (named ["int"] "p" [])
           (Some "c_ptr(c_int)") eq_refl).
Defined.

(** X3.  The resolution returns [None] only for a declarator around a
    node without a name (an aggregate without a tag), possibly under
    array dimensions. *)
Theorem toChapelType_None_untagged :
  forall ty : node,
    toChapelType ty = Ok None ->
    exists (dims : list (option node)) (dn : option string)
           (q : list string) (inner : node),
      ty = arrayOf dims (TypeDecl dn q inner)
      /\ getDeclName (TypeDecl dn q inner) = Ok None.
Proof.
  induction ty as [ | | | |dn tq inner _|q t _|t IH d| | | | | | | | | | ];
    intros H; try (cbn in H; discriminate).
  - exists [], dn, tq, inner. split; [reflexivity|].
    rewrite toChapelType_TypeDecl in H.
    destruct (getDeclName (TypeDecl dn tq inner)) as [[name|]|e];
      [|reflexivity|destruct e; discriminate].
    destruct (dict_get c2chapel name); discriminate.
  - destruct (toChapelType_pointer_is_text q t None H) as (s & Hs & _).
    discriminate.
  - assert (Ht : toChapelType t = Ok None).
    { cbn [toChapelType isPointerTo rbind] in H.
      destruct (toChapelType t) as [[e|]|e]; cbn [rbind] in H;
        [|reflexivity|discriminate].
      destruct t; cbn in H; discriminate. }
    destruct (IH Ht) as (dims & dn & q & inner & -> & Hn).
    exists (d :: dims), dn, q, inner. split; [reflexivity|exact Hn].
Qed.

Lemma toChapelType_None_untagged_witness :
  exists (dims : list (option node)) (dn : option string)
         (q : list string) (inner : node),
    ArrayDecl (TypeDecl (Some "u") [] (Struct None None)) None
    = arrayOf dims (TypeDecl dn q inner)
    /\ getDeclName (TypeDecl dn q inner) = Ok None.
Proof.
  exact (toChapelType_None_untagged
           (ArrayDecl (TypeDecl (Some "u") [] (Struct None None)) None)
           eq_refl).
Defined.

(** X4.  An array decays like a pointer: for an element type with a name
    other than [void], an array of it resolves to the type a pointer to it
    resolves to. *)
Theorem toChapelType_array_decays_to_pointer :
  forall (dn : option string) (tq : list string) (inner : node)
         (dim : option node) (q : list string) (name : string),
    getDeclName (TypeDecl dn tq inner) = Ok (Some name) ->
    name <> "void" ->
    toChapelType (ArrayDecl (TypeDecl dn tq inner) dim)
    = toChapelType (PtrDecl q (TypeDecl dn tq inner)).
Proof.
  intros dn tq inner dim q name Hn Hv.
  assert (Ht : exists s, toChapelType (TypeDecl dn tq inner) = Ok (Some s)).
  { rewrite toChapelType_TypeDecl, Hn.
    destruct (dict_get c2chapel name); eauto. }
  destruct Ht as [s Ht].
  rewrite (toChapelType_ptr q _ s Ht).
  cbn [attr_quals rbind pointeeText]. rewrite Hn.
  apply String.eqb_neq in Hv. rewrite Hv.
  cbn [toChapelType isPointerTo rbind].
  fold (toChapelType (TypeDecl dn tq inner)).
  change (match getDeclName (TypeDecl dn tq inner) with
          | Ok (Some name0) =>
              match dict_get c2chapel name0 with
              | Some v => Ok (Some v)
              | None => Ok (Some name0)
              end
          | Ok None => Ok None
          | Raise (Exception msg) =>
              Raise (Exception ("toChapelType: " ++ msg))
          | Raise e => Raise e
          end) with (toChapelType (TypeDecl dn tq inner)).
  rewrite Ht. reflexivity.
Qed.

Lemma toChapelType_array_decays_to_pointer_witness :
  toChapelType (ArrayDecl (named ["char"] "buf" ["const"]) None)
  = toChapelType (PtrDecl [] (named ["char"] "buf" ["const"])).
Proof.
  refine (toChapelType_array_decays_to_pointer (Some "buf") ["const"]
            (IdentifierType ["char"]) None [] "char" eq_refl _).
  discriminate.
Defined.

(** ** The formal lists *)




Lemma getIntentInfo_value (ty : node) (t : option string) :
  is_PtrDecl ty = false ->
  toChapelType ty = Ok t ->
  getIntentInfo ty = Ok ("", t, Some "").
Proof.
  intros Hp Ht. unfold getIntentInfo. now rewrite Hp, Ht.
Qed.

(** A parameter that is no pointer, with a name and a type text: the loop
    appends one formal, the same, to both lists. *)
Lemma computeArgs_loop_value_param (tds : typedefs) (i : nat) (arg : node)
      (rest : list node) (f pf : list string) (ty : node) (a t : string)
      (b : bool) :
  attr_type arg = Ok ty ->
  is_PtrDecl ty = false ->
  toChapelType ty = Ok (Some t) ->
  t <> "" ->
  computeArgName arg = Ok (Some a) ->
  a <> "" ->
  isStructOrUnionType tds ty = Ok b ->
  computeArgs_loop tds i (arg :: rest) f pf
  = computeArgs_loop tds (S i) rest
      (f ++ [(if b then "in " else "") ++ a ++ " : " ++ t])
      (pf ++ [(if b then "in " else "") ++ a ++ " : " ++ t]).
Proof.
  intros Hty Hp Ht Hte Ha Hae Hs.
  apply String.eqb_neq in Hte, Hae.
  assert (Hgen :
    (ty <- attr_type arg ;;
     info <- getIntentInfo ty ;;
     (let '(intent, typeName, ptrTypeName) := info in
      argName <- computeArgName arg ;;
      if negb (opt_eqb typeName "") then
        intent0 <-
          (if intent =? "" then
             b <- isStructOrUnionType tds ty ;;
             Ok (if (b : bool) then "in " else "")
           else Ok (intent ++ " ")) ;;
        (let argName0 :=
           if opt_eqb argName "" then Some ("arg" ++ Py.str_of_nat i)
           else argName in
         a <- str_of argName0 ;;
         t <- str_of typeName ;;
         (let formal := intent0 ++ a ++ " : " ++ t in
          ptrFormal <-
            (if negb (opt_eqb ptrTypeName "") then
               p <- str_of ptrTypeName ;; Ok (a ++ " : " ++ p)
             else Ok formal) ;;
          computeArgs_loop tds (S i) rest
            (f ++ [formal]) (pf ++ [ptrFormal])))
      else computeArgs_loop tds (S i) rest f pf))
    = computeArgs_loop tds (S i) rest
        (f ++ [(if b then "in " else "") ++ a ++ " : " ++ t])
        (pf ++ [(if b then "in " else "") ++ a ++ " : " ++ t])).
  { rewrite Hty. cbn [rbind].
    rewrite (getIntentInfo_value ty (Some t) Hp Ht). cbn [rbind].
    rewrite Ha. cbn [rbind opt_eqb]. rewrite Hte, Hae. cbn [negb String.eqb].
    rewrite Hs. reflexivity. }
  destruct arg; try exact Hgen; discriminate Hty.
Qed.

(** X6.  An aggregate passed by value gets the [in] intent, in both
    formal lists: so for a parameter of struct or union type, and so for a
    parameter whose type is a typedef name that the table maps to a struct
    or union. *)
Theorem aggregate_by_value_in_intent :
  forall (tds : typedefs) (i : nat) (a : string) (q : list string)
         (i0 b0 : option node) (rest : list node) (f pf : list string),
    Py.mem (Some a) chapelKeywords = false ->
    a <> "" ->
    (forall (dn : option string) (tq : list string) (agg : node)
            (tag : string),
        is_aggregate agg = true ->
        getDeclName agg = Ok (Some tag) ->
        dict_get c2chapel tag = None ->
        tag <> "" ->
        computeArgs_loop tds i (Decl (Some a) q (TypeDecl dn tq agg) i0 b0 :: rest)
                         f pf
        = computeArgs_loop tds (S i) rest
            (f ++ ["in " ++ a ++ " : " ++ tag])
            (pf ++ ["in " ++ a ++ " : " ++ tag]))
    /\
    (forall (dn : option string) (tq : list string) (T : string)
            (tdq : list string) (dn' : option string) (tq' : list string)
            (agg : node),
        td_get tds (Some T)
        = Some (Some (Typedef T tdq (TypeDecl dn' tq' agg))) ->
        is_aggregate agg = true ->
        dict_get c2chapel T = None ->
        T <> "" ->
        computeArgs_loop tds i
          (Decl (Some a) q (TypeDecl dn tq (IdentifierType [T])) i0 b0 :: rest)
          f pf
        = computeArgs_loop tds (S i) rest
            (f ++ ["in " ++ a ++ " : " ++ T])
            (pf ++ ["in " ++ a ++ " : " ++ T])).
Proof.
  intros tds i a q i0 b0 rest f pf Hkw Ha.
  assert (Hname : forall t, computeArgName (Decl (Some a) q t i0 b0)
                            = Ok (Some a)).
  { intros t. unfold computeArgName. now rewrite Hkw. }
  split.
  - intros dn tq agg tag Hagg Htag Hreg Hne.
    apply (computeArgs_loop_value_param tds i _ rest f pf
             (TypeDecl dn tq agg) a tag true); try reflexivity;
      try assumption; try apply Hname.
    + rewrite toChapelType_TypeDecl.
      destruct agg; try discriminate; cbn [getDeclName] in Htag |- *;
        injection Htag as ->; now rewrite Hreg.
    + unfold isStructOrUnionType.
      destruct agg; try discriminate; destruct (List.length tds); reflexivity.
  - intros dn tq T tdq dn' tq' agg Htd Hagg Hreg Hne.
    apply (computeArgs_loop_value_param tds i _ rest f pf
             (TypeDecl dn tq (IdentifierType [T])) a T true);
      try reflexivity; try assumption; try apply Hname.
    + rewrite toChapelType_TypeDecl. cbn [getDeclName Py.join String.concat].
      now rewrite Hreg.
    + unfold isStructOrUnionType.
      destruct tds as [|e tds']; [discriminate Htd|].
      cbn [List.length isStructOrUnionType_rec Py.join String.concat].
      rewrite Htd. cbn [attr_type rbind].
      destruct agg; try discriminate; destruct (List.length tds');
        reflexivity.
Qed.

Lemma aggregate_by_value_in_intent_witness :
  computeArgs pair_typedefs
    (Some [param "p" (named ["pair_t"] "p" []);
           param "s" (TypeDecl (Some "s") [] (Struct (Some "pair") None))])
  = Ok ("in p : pair_t, in s : pair", "in p : pair_t, in s : pair").
Proof.
  unfold computeArgs.
  rewrite (proj2 (aggregate_by_value_in_intent pair_typedefs 0 "p" []
                    None None _ [] [] eq_refl ltac:(discriminate))
             (Some "p") [] "pair_t" [] (Some "pair_t") []
             (Struct (Some "pair") (Some [field "a" (IdentifierType ["int"])]))
             eq_refl eq_refl eq_refl ltac:(discriminate)).
  rewrite (proj1 (aggregate_by_value_in_intent pair_typedefs 1 "s" []
                    None None [] _ _ eq_refl ltac:(discriminate))
             (Some "s") [] (Struct (Some "pair") None) "pair"
             eq_refl eq_refl eq_refl ltac:(discriminate)).
  reflexivity.
Defined.

(** ** The filter on [va_list] *)

Lemma prefix_append (p s : string) : String.prefix p (p ++ s) = true.
Proof.
  induction p as [|c p IH]; cbn [append String.prefix].
  - now destruct s.
  - destruct (ascii_dec c c); [exact IH|contradiction].
Qed.

Lemma drop_append (p s : string) : Py.drop (String.length p) (p ++ s) = s.
Proof. induction p as [|c p IH]; cbn; [reflexivity|exact IH]. Qed.

Lemma match_va_list_eq (s : string) :
  match_va_list s
  = (String.prefix ": va_list" s && word_boundary_after_word (Py.drop 9 s))
    || match s with
       | EmptyString => false
       | String c s' => if (code c =? 10)%nat then false else match_va_list s'
       end.
Proof. destruct s; reflexivity. Qed.

Lemma match_va_list_found (pre post : string) :
  hasNewline pre = false ->
  word_boundary_after_word post = true ->
  match_va_list (pre ++ ": va_list" ++ post) = true.
Proof.
  intros Hpre Hpost. induction pre as [|c pre IH].
  - change ("" ++ ": va_list" ++ post) with (": va_list" ++ post).
    rewrite match_va_list_eq, prefix_append.
    change 9 with (String.length ": va_list").
    rewrite drop_append, Hpost. reflexivity.
  - cbn [hasNewline] in Hpre. apply orb_false_iff in Hpre as [Hc Hpre].
    change (String c pre ++ ": va_list" ++ post)
      with (String c (pre ++ ": va_list" ++ post)).
    rewrite (match_va_list_eq (String c _)).
    cbv iota. cbv beta. rewrite Hc, (IH Hpre). apply orb_true_r.
Qed.

Lemma hasNewline_append (a b : string) :
  hasNewline (a ++ b) = hasNewline a || hasNewline b.
Proof.
  induction a as [|c a IH]; cbn; [reflexivity|].
  now rewrite IH, orb_assoc.
Qed.

Lemma hasNewline_join (l : list string) :
  Forall (fun s => hasNewline s = false) l ->
  hasNewline (Py.join ", " l) = false.
Proof.
  induction 1 as [|x l Hx Hl IH]; [reflexivity|].
  destruct l as [|y l]; [exact Hx|].
  change (Py.join ", " (x :: y :: l)) with (x ++ ", " ++ Py.join ", " (y :: l)).
  rewrite !hasNewline_append, Hx, IH. reflexivity.
Qed.

(** The joined text around one of its formals. *)
Lemma join_around (l1 l2 : list string) (x : string) :
  exists pre post,
    Py.join ", " (l1 ++ x :: l2) = pre ++ x ++ post
    /\ (Forall (fun s => hasNewline s = false) l1 -> hasNewline pre = false)
    /\ (post = "" \/ exists rest, post = ", " ++ rest).
Proof.
  assert (Hpost : exists post,
             Py.join ", " (x :: l2) = x ++ post
             /\ (post = "" \/ exists rest, post = ", " ++ rest)).
  { destruct l2 as [|y l2].
    - exists "". cbn. rewrite append_nil_r. split; [reflexivity|now left].
    - exists (", " ++ Py.join ", " (y :: l2)). split; [reflexivity|].
      right. eauto. }
  destruct Hpost as (post & Hj & Hpost).
  induction l1 as [|y l1 IH].
  - exists "", post. cbn [app append]. repeat split; auto.
  - destruct IH as (pre & post' & Heq & Hpre & Hp').
    exists (y ++ ", " ++ pre), post'. split; [|split; [|exact Hp']].
    + cbn [app]. destruct (l1 ++ x :: l2)%list as [|z l] eqn:Hl.
      * now destruct l1.
      * change (Py.join ", " (y :: z :: l))
          with (y ++ ", " ++ Py.join ", " (z :: l)).
        rewrite Heq, !append_assoc. reflexivity.
    + intros Hall. inversion Hall as [|? ? Hy Hl1]; subst.
      rewrite !hasNewline_append, Hy, (Hpre Hl1). reflexivity.
Qed.

(** X7.  A function one of whose reference-style formals has the type
    text [va_list] is not generated, whatever the position of the formal:
    a comment and an empty line take the place of its declarations. *)
Theorem va_list_parameter_skips_function :
  forall (nc : bool) (show : node -> string) (fn : node) (st : state)
         (rt : option string) (name : string) (fs1 fs2 : list string)
         (x ptrArgs : string),
    (t <- attr_type fn ;; toChapelType t) = Ok rt ->
    (t <- attr_type fn ;; getFunctionName t) = Ok (Some name) ->
    (pl <- attr_args fn ;; computeArgs (typeDefs st) pl)
    = Ok (Py.join ", " (fs1 ++ (x ++ ": va_list") :: fs2), ptrArgs) ->
    Py.mem (Some name) chapelKeywords = false ->
    Forall (fun s => hasNewline s = false) fs1 ->
    hasNewline x = false ->
    genFuncDecl nc show fn st
    = (Ok tt,
       emit st (commentLines nc ("Unable to generate function '" ++ name
                                 ++ "' due to va_list argument")
                ++ [newline])).
Proof.
  intros nc show fn st rt name fs1 fs2 x ptrArgs
         Hrt Hname Hargs Hkw Hfs1 Hx.
  assert (Hva : match_va_list
                  (Py.join ", " (fs1 ++ (x ++ ": va_list") :: fs2)) = true).
  { destruct (join_around fs1 fs2 (x ++ ": va_list"))
      as (pre & post & -> & Hpre & Hpost).
    rewrite append_assoc, <- (append_assoc pre x).
    apply match_va_list_found.
    - now rewrite hasNewline_append, (Hpre Hfs1), Hx.
    - destruct Hpost as [->|[rest ->]]; reflexivity. }
  unfold genFuncDecl, bind, get_typeDefs.
  rewrite Hrt, lift_Ok, Hname, lift_Ok, Hargs, lift_Ok, Hkw, Hva.
  cbn [str_of]. rewrite lift_Ok, genComment_run, print_run, emit_emit.
  reflexivity.
Qed.

Lemma va_list_parameter_skips_function_witness :
  genFuncDecl false noDump vprintf_decl initial
  = (Ok tt,
     emit initial
       ["// Unable to generate function 'vprintf' due to va_list argument"
        ++ newline;
        newline]).
Proof.
  refine (va_list_parameter_skips_function false noDump vprintf_decl initial
            (Some "c_int") "vprintf" ["fmt : c_ptrConst(c_char)"] [] "ap "
            "fmt : c_ptrConst(c_char), ap : va_list"
            eq_refl eq_refl eq_refl eq_refl _ eq_refl).
  repeat constructor.
Defined.

(** ** Comments *)

Lemma prefix_newline (c : ascii) (s : string) :
  String.prefix newline (String c s) = (code c =? 10)%nat.
Proof.
  unfold newline. cbn [String.prefix].
  destruct (ascii_dec (ascii_of_nat 10) c) as [<-|Hne].
  - now destruct s.
  - symmetry. apply Nat.eqb_neq. intros H. apply Hne.
    unfold code in H. now rewrite <- (ascii_nat_embedding c), H.
Qed.

Lemma split_aux_newline_cons (c : ascii) (s cur : string) :
  Py.split_aux newline (String c s) 0 cur
  = if (code c =? 10)%nat then cur :: Py.split_aux newline s 0 ""
    else Py.split_aux newline s 0 (cur ++ String c "").
Proof.
  cbn [Py.split_aux]. now rewrite prefix_newline.
Qed.

Lemma split_newline_lines (s : string) :
  forall cur,
    hasNewline cur = false ->
    Forall (fun l => hasNewline l = false) (Py.split_aux newline s 0 cur).
Proof.
  induction s as [|c s IH]; intros cur Hcur.
  - now repeat constructor.
  - rewrite split_aux_newline_cons.
    destruct (code c =? 10)%nat eqn:Hc.
    + constructor; [exact Hcur|]. now apply IH.
    + apply IH. rewrite hasNewline_append, Hcur. cbn. now rewrite Hc.
Qed.

Lemma split_aux_not_nil (sep s : string) (skip : nat) (cur : string) :
  Py.split_aux sep s skip cur <> [].
Proof.
  revert skip cur.
  induction s as [|c s IH]; intros skip cur; cbn [Py.split_aux].
  - discriminate.
  - destruct skip; [|apply IH].
    destruct (String.prefix sep (String c s)); [discriminate|apply IH].
Qed.

Lemma join_cons (sep x : string) (l : list string) :
  l <> [] -> Py.join sep (x :: l) = x ++ sep ++ Py.join sep l.
Proof. destruct l; [contradiction|reflexivity]. Qed.

Lemma join_split_newline (s : string) :
  forall cur, Py.join newline (Py.split_aux newline s 0 cur) = cur ++ s.
Proof.
  induction s as [|c s IH]; intros cur.
  - cbn. now rewrite append_nil_r.
  - rewrite split_aux_newline_cons.
    destruct (code c =? 10)%nat eqn:Hc.
    + rewrite join_cons by apply split_aux_not_nil.
      rewrite IH. cbn [append].
      apply Nat.eqb_eq in Hc. unfold code in Hc.
      assert (Hcn : c = ascii_of_nat 10)
        by now rewrite <- (ascii_nat_embedding c), Hc.
      now subst c.
    + rewrite IH, append_assoc. reflexivity.
Qed.

(** X8.  [genComment] writes the text it is given line by line, every
    line behind the comment mark: each chunk is "// ", a piece of the text
    without line break, and a line break, and the pieces joined by line
    breaks are the text.  With comments switched off it writes nothing. *)
Theorem genComment_comments_every_line :
  forall (s : string) (st : state),
    (exists lines,
        genComment false s st
        = (Ok tt, emit st (map (fun l => "// " ++ l ++ newline) lines))
        /\ Forall (fun l => hasNewline l = false) lines
        /\ Py.join newline lines = s)
    /\ genComment true s st = (Ok tt, st).
Proof.
  intros s st. split; [|reflexivity].
  exists (Py.split newline s). split; [|split].
  - now rewrite genComment_run.
  - now apply split_newline_lines.
  - apply (join_split_newline s "").
Qed.

(** ** The pattern of the macro scan *)

Lemma take_while_app (p : ascii -> bool) (a b : string) :
  allChars p a = true -> startsOutside p b = true ->
  take_while p (a ++ b) = a.
Proof.
  intros Ha Hb. induction a as [|c a IH]; cbn [append].
  - destruct b as [|c b]; [reflexivity|]. cbn in Hb |- *.
    apply negb_true_iff in Hb. now rewrite Hb.
  - cbn in Ha |- *. apply andb_prop in Ha as [Hc Ha].
    now rewrite Hc, IH.
Qed.

Lemma drop_while_app (p : ascii -> bool) (a b : string) :
  allChars p a = true -> startsOutside p b = true ->
  drop_while p (a ++ b) = b.
Proof.
  intros Ha Hb. induction a as [|c a IH]; cbn [append].
  - destruct b as [|c b]; [reflexivity|]. cbn in Hb |- *.
    apply negb_true_iff in Hb. now rewrite Hb.
  - cbn in Ha |- *. apply andb_prop in Ha as [Hc Ha].
    now rewrite Hc, IH.
Qed.

Lemma startsOutside_app (p q : ascii -> bool) (a b : string) :
  (forall c, q c = true -> p c = false) ->
  allChars q a = true -> a <> "" ->
  startsOutside p (a ++ b) = true.
Proof.
  intros Hpq Ha Hne. destruct a as [|c a]; [contradiction|].
  cbn in Ha |- *. apply andb_prop in Ha as [Hc _].
  now rewrite (Hpq c Hc).
Qed.

Lemma take_drop_while (p : ascii -> bool) (s : string) :
  s = take_while p s ++ drop_while p s
  /\ allChars p (take_while p s) = true
  /\ startsOutside p (drop_while p s) = true.
Proof.
  induction s as [|c s (IH1 & IH2 & IH3)]; cbn.
  - repeat split.
  - destruct (p c) eqn:Hc; cbn.
    + rewrite Hc, IH2. repeat split; [now f_equal|exact IH3].
    + rewrite Hc. repeat split.
Qed.

Lemma prefix_decompose (p s : string) :
  String.prefix p s = true -> s = p ++ Py.drop (String.length p) s.
Proof.
  revert s. induction p as [|c p IH]; intros s H.
  - reflexivity.
  - destruct s as [|d s]; [discriminate|]. cbn [String.prefix] in H.
    destruct (ascii_dec c d) as [<-|]; [|discriminate].
    cbn. f_equal. now apply IH.
Qed.

Lemma ident_not_space (c : ascii) : is_ident c = true -> is_space c = false.
Proof.
  destruct c as [[] [] [] [] [] [] [] []]; vm_compute; congruence.
Qed.

Lemma space_not_ident (c : ascii) : is_space c = true -> is_ident c = false.
Proof.
  destruct c as [[] [] [] [] [] [] [] []]; vm_compute; congruence.
Qed.

Lemma digit_not_space (c : ascii) : is_digit c = true -> is_space c = false.
Proof.
  destruct c as [[] [] [] [] [] [] [] []]; vm_compute; congruence.
Qed.

(** X9.  The macro scan accepts every line of the shape blanks,
    "#define", blanks, name, blanks, digits, end of line, and finds the
    name in it. *)
Theorem match_define_accepts_shape :
  forall (line name : string),
    defineShape line name -> match_define line = Some name.
Proof.
  intros line name
         (ws0 & ws1 & ws2 & digits & tail & -> & H0 & H1 & N1 & Hn & Nn
          & H2 & N2 & Hd & Nd & Ht).
  assert (Htail : startsOutside is_digit tail = true)
    by (destruct Ht as [->| ->]; reflexivity).
  unfold match_define.
  rewrite (drop_while_app is_space ws0) by (exact H0 || reflexivity).
  rewrite prefix_append. cbn [negb].
  change 7 with (String.length "#define"). rewrite drop_append.
  assert (S1 : startsOutside is_space (name ++ ws2 ++ digits ++ tail) = true)
    by (apply (startsOutside_app _ is_ident); auto using ident_not_space).
  assert (S2 : startsOutside is_ident (ws2 ++ digits ++ tail) = true)
    by (apply (startsOutside_app _ is_space); auto using space_not_ident).
  assert (S3 : startsOutside is_space (digits ++ tail) = true)
    by (apply (startsOutside_app _ is_digit); auto using digit_not_space).
  rewrite (take_while_app is_space ws1), (drop_while_app is_space ws1)
    by assumption.
  apply String.eqb_neq in N1. rewrite N1.
  rewrite (take_while_app is_ident name), (drop_while_app is_ident name)
    by assumption.
  pose proof Nn as Nn'. apply String.eqb_neq in Nn'. rewrite Nn'.
  rewrite (take_while_app is_space ws2), (drop_while_app is_space ws2)
    by assumption.
  apply String.eqb_neq in N2. rewrite N2.
  rewrite (take_while_app is_digit digits), (drop_while_app is_digit digits)
    by assumption.
  apply String.eqb_neq in Nd. rewrite Nd.
  destruct Ht as [->| ->]; reflexivity.
Qed.

Lemma match_define_accepts_shape_witness :
  match_define ("  #define  MAX_LEN   128" ++ newline) = Some "MAX_LEN".
Proof.
  apply match_define_accepts_shape.
  exists "  ", "  ", "   ", "128", newline.
  repeat split; try reflexivity; try discriminate. now right.
Defined.

(** X10.  The macro scan accepts no other line: a line in which it finds
    a name has that shape, so the name is a non-empty word of letters,
    digits and underscores, and the value is a run of decimal digits that
    ends the line. *)
Theorem match_define_only_shape :
  forall (line name : string),
    match_define line = Some name -> defineShape line name.
Proof.
  intros line name. unfold match_define.
  destruct (take_drop_while is_space line) as (E0 & A0 & _).
  set (s1 := drop_while is_space line) in *.
  destruct (String.prefix "#define" s1) eqn:Hp; [|discriminate].
  cbn [negb]. apply prefix_decompose in Hp. cbn [String.length] in Hp.
  set (s2 := Py.drop 7 s1) in *.
  destruct (take_drop_while is_space s2) as (E1 & A1 & _).
  destruct (take_while is_space s2 =? "") eqn:N1; [discriminate|].
  set (s3 := drop_while is_space s2) in *.
  destruct (take_drop_while is_ident s3) as (E2 & A2 & _).
  destruct (take_while is_ident s3 =? "") eqn:N2; [discriminate|].
  set (s4 := drop_while is_ident s3) in *.
  destruct (take_drop_while is_space s4) as (E3 & A3 & _).
  destruct (take_while is_space s4 =? "") eqn:N3; [discriminate|].
  set (s5 := drop_while is_space s4) in *.
  destruct (take_drop_while is_digit s5) as (E4 & A4 & _).
  destruct (take_while is_digit s5 =? "") eqn:N4; [discriminate|].
  set (s6 := drop_while is_digit s5) in *.
  destruct ((s6 =? "") || (s6 =? newline)) eqn:Hend; [|discriminate].
  intros [= <-].
  exists (take_while is_space line), (take_while is_space s2),
    (take_while is_space s4), (take_while is_digit s5), s6.
  apply String.eqb_neq in N1, N2, N3, N4.
  repeat split; try assumption.
  - rewrite <- E4, <- E3, <- E2, <- E1, <- Hp. exact E0.
  - apply orb_prop in Hend as [H|H]; apply String.eqb_eq in H; auto.
Qed.

Lemma match_define_only_shape_witness :
  defineShape ("#define ANSWER 42" ++ newline) "ANSWER".
Proof.
  exact (match_define_only_shape ("#define ANSWER 42" ++ newline) "ANSWER"
           eq_refl).
Defined.

Lemma definedNames_nil (lines : list string) :
  Forall (fun l => match_define l = None) lines -> definedNames lines = [].
Proof.
  induction 1 as [|l lines Hl _ IH]; cbn [definedNames]; [reflexivity|].
  now rewrite Hl.
Qed.

(** X11.  When no line of the file defines an integer macro, the scan
    writes nothing at all: no comment, no empty line. *)
Theorem emit_defines_silent_without_macros :
  forall (nc : bool) (lines : list string) (st : state),
    Forall (fun l => match_define l = None) lines ->
    emit_defines nc lines st = (Ok tt, st).
Proof.
  intros nc lines st H. rewrite emit_defines_run.
  unfold definesOutput. rewrite (definedNames_nil lines H).
  now rewrite emit_nil.
Qed.

Lemma emit_defines_silent_without_macros_witness :
  emit_defines false ["#define MASK 0x10" ++ newline;
                      "#define PI 3.14" ++ newline;
                      "int f(void);" ++ newline] initial
  = (Ok tt, initial).
Proof.
  apply emit_defines_silent_without_macros.
  repeat constructor.
Defined.

(** ** What the emitters leave alone *)

Lemma framed_ret {A} (a : A) : framed (ret a).
Proof.
  intros st. cbn. repeat split; auto. exists []. now rewrite app_nil_r.
Qed.

Lemma framed_bind {A B} (m : M A) (k : A -> M B) :
  framed m -> (forall a, framed (k a)) -> framed (bind m k).
Proof.
  intros Hm Hk st. unfold bind. specialize (Hm st).
  destruct (m st) as [[a|e] st1]; cbn [snd] in Hm.
  - destruct Hm as (T1 & F1 & out1 & O1).
    destruct (Hk a st1) as (T2 & F2 & out2 & O2).
    repeat split.
    + now rewrite T2.
    + auto.
    + exists (out1 ++ out2)%list. now rewrite O2, O1, app_assoc.
  - exact Hm.
Qed.

Lemma framed_write (chunk : string) : framed (write chunk).
Proof. intros st. cbn. repeat split; auto. now exists [chunk]. Qed.

Lemma framed_print (s : string) : framed (print s).
Proof. apply framed_write. Qed.

Lemma framed_lift {A} (show : node -> string) (r : result A) :
  framed (lift show r).
Proof.
  destruct r as [a|e]; [apply framed_ret|].
  intros st. destruct e; cbn; repeat split; auto;
    try (exists []; now rewrite app_nil_r).
  now eexists.
Qed.

Lemma framed_mapM_ {A} (body : A -> M unit) (l : list A) :
  (forall x, In x l -> framed (body x)) -> framed (mapM_ body l).
Proof.
  induction l as [|x l IH]; intros H; cbn [mapM_].
  - apply framed_ret.
  - apply framed_bind; [apply H; now left|].
    intros _. apply IH. intros y Hy. apply H. now right.
Qed.

Lemma framed_genComment (nc : bool) (s : string) : framed (genComment nc s).
Proof.
  unfold genComment. destruct nc; [apply framed_ret|].
  apply framed_mapM_. intros x _. apply framed_print.
Qed.

Lemma framed_add_foundType (name : string) : framed (add_foundType name).
Proof.
  intros st. cbn. repeat split.
  - intros x Hx. destruct (existsb _ _); [exact Hx|].
    apply in_or_app. now left.
  - exists []. now rewrite app_nil_r.
Qed.

Lemma framed_get_typeDefs : framed get_typeDefs.
Proof.
  intros st. cbn. repeat split; auto. exists []. now rewrite app_nil_r.
Qed.

Lemma framed_get_foundTypes : framed get_foundTypes.
Proof.
  intros st. cbn. repeat split; auto. exists []. now rewrite app_nil_r.
Qed.

Create HintDb framed.

#[local] Hint Resolve framed_ret framed_print framed_write framed_lift
  framed_genComment framed_add_foundType framed_get_typeDefs
  framed_get_foundTypes : framed.

Ltac framed_step :=
  first
    [ solve [auto with framed]
    | apply framed_bind; [|intros ?]
    | match goal with
      | |- framed (if ?b then _ else _) => destruct b
      | |- framed (match ?x with _ => _ end) => destruct x
      | |- framed (let '(_, _) := ?x in _) => destruct x
      end ].

Ltac framed_auto := repeat framed_step.

Lemma framed_finishAggregate (nc : bool) (head : string) (fs : fields) :
  framed (finishAggregate nc head fs).
Proof. unfold finishAggregate. framed_auto. Qed.

Lemma getStructOrUnionDef_depth (d s : node) :
  getStructOrUnionDef d = Some s -> aggDepth s <= aggDepth d.
Proof.
  induction d; cbn [getStructOrUnionDef aggDepth]; try discriminate;
    try assumption;
    match goal with
    | o : option (list node) |- _ =>
        destruct o; [intros [= <-]; reflexivity|discriminate]
    end.
Qed.

Lemma aggDepth_member (isUnion : bool) (tag : option string)
      (ds : list node) (d : node) :
  In d ds -> aggDepth d < aggDepth (aggregate isUnion tag (Some ds)).
Proof.
  intros Hin.
  assert (H : aggDepth d <= deepest ds).
  { induction ds as [|x ds IH]; [contradiction|].
    cbn [deepest fold_right]. fold (deepest ds).
    destruct Hin as [->|Hin]; [lia|]. specialize (IH Hin). lia. }
  assert (E : aggDepth (aggregate isUnion tag (Some ds)) = S (deepest ds)).
  { destruct isUnion; cbn [aggregate aggDepth]; f_equal;
      induction ds as [|x ds IH]; cbn; auto. }
  lia.
Qed.

Lemma framed_fieldLoop (show : node -> string) (rec : node -> M unit)
      (ds : list node) :
  (forall d s, In d ds -> getStructOrUnionDef d = Some s -> framed (rec s)) ->
  forall acc, framed (fieldLoop show rec ds acc).
Proof.
  induction ds as [|d ds IH]; intros Hrec acc; cbn [fieldLoop].
  - auto with framed.
  - apply framed_bind.
    + rewrite genInner_getStructOrUnionDef.
      destruct (getStructOrUnionDef d) as [s|] eqn:Hs; [|auto with framed].
      apply (Hrec d s); [now left|exact Hs].
    + intros _. framed_auto.
      apply IH. intros d' s' Hin. apply Hrec. now right.
Qed.

Lemma framed_genStructOrUnion_depth (nc : bool) (show : node -> string)
      (k : nat) :
  forall (n : node) (name : string) (isAnon : bool),
    aggDepth n <= k -> framed (genStructOrUnion nc show n name isAnon).
Proof.
  induction k as [|k IH]; intros n name isAnon Hk.
  - destruct n as [ |nm [ds|]|nm [ds|]| | | | | | | | | | | | | | ];
      cbn [aggDepth] in Hk; try lia; cbn [genStructOrUnion]; framed_auto.
  - assert (Hagg : forall isUnion nm ds,
               aggDepth (aggregate isUnion nm (Some ds)) <= S k ->
               forall acc,
                 framed (fieldLoop show
                           (fun d => genStructOrUnion nc show d "" false)
                           ds acc)).
    { intros isUnion nm ds Hd. apply framed_fieldLoop.
      intros d s Hin Hs. apply IH.
      pose proof (getStructOrUnionDef_depth d s Hs).
      pose proof (aggDepth_member isUnion nm ds d Hin). lia. }
    destruct n as [ |nm [ds|]|nm [ds|]| | | | | | | | | | | | | | ];
      cbn [genStructOrUnion]; framed_auto;
      try apply framed_finishAggregate.
    + apply (Hagg false nm ds Hk).
    + apply (Hagg true nm ds Hk).
Qed.

Lemma genStructOrUnion_is_framed (nc : bool) (show : node -> string)
      (n : node) (name : string) (isAnon : bool) :
  framed (genStructOrUnion nc show n name isAnon).
Proof. now apply (framed_genStructOrUnion_depth nc show (aggDepth n)). Qed.

(** X12.  Translating an aggregate, whatever the node and the outcome,
    leaves the typedef table as it was, forgets no found type and only
    appends to what was printed. *)
Theorem genStructOrUnion_framed :
  forall (nc : bool) (show : node -> string) (n : node) (name : string)
         (isAnon : bool) (st : state),
    typeDefs (snd (genStructOrUnion nc show n name isAnon st)) = typeDefs st
    /\ (forall x, In x (foundTypes st) ->
                  In x (foundTypes
                          (snd (genStructOrUnion nc show n name isAnon st))))
    /\ exists out,
         stdout (snd (genStructOrUnion nc show n name isAnon st))
         = (stdout st ++ out)%list.
Proof. intros. apply genStructOrUnion_is_framed. Qed.

(** ** The typedef pass, case by case *)

Lemma framed_genTypeAlias (show : node -> string) (n : node) :
  framed (genTypeAlias show n).
Proof. unfold genTypeAlias. framed_auto. Qed.

Lemma framed_genTypeEnum (show : node -> string) (decl : node) :
  framed (genTypeEnum show decl).
Proof.
  unfold genTypeEnum. framed_auto.
  apply framed_mapM_. intros child _. framed_auto.
  apply framed_mapM_. intros v _. framed_auto.
Qed.

#[local] Hint Resolve genStructOrUnion_is_framed framed_genTypeAlias
  framed_genTypeEnum : framed.

Lemma framed_genTypedef (nc : bool) (show : node -> string)
      (name : option string) (entry : option node) :
  framed (genTypedef nc show name entry).
Proof.
  unfold genTypedef. framed_auto.
Qed.

Lemma framed_genTypedefs (nc : bool) (show : node -> string)
      (defs : typedefs) :
  framed (genTypedefs nc show defs).
Proof.
  unfold genTypedefs, raise. framed_auto.
  apply framed_mapM_. intros name _.
  destruct (td_get defs name); [apply framed_genTypedef|auto with framed].
Qed.

(** X13.  The typedef pass reads the typedef table and never writes it:
    whatever table it is given and whatever the outcome, the module's
    table is afterwards what it was, no found type is forgotten and the
    output is only added to. *)
Theorem genTypedefs_framed :
  forall (nc : bool) (show : node -> string) (defs : typedefs) (st : state),
    typeDefs (snd (genTypedefs nc show defs st)) = typeDefs st
    /\ (forall x, In x (foundTypes st) ->
                  In x (foundTypes (snd (genTypedefs nc show defs st))))
    /\ exists out,
         stdout (snd (genTypedefs nc show defs st)) = (stdout st ++ out)%list.
Proof. intros. apply framed_genTypedefs. Qed.

Lemma mem_In (x : string) (l : list string) :
  Py.mem (Some x) l = true -> In x l.
Proof.
  cbn [Py.mem]. intros H. apply existsb_exists in H as (y & Hy & E).
  apply String.eqb_eq in E. now subst.
Qed.

Lemma register_In (st : state) (name : string) :
  In name (foundTypes (register st name)).
Proof.
  unfold register. cbn [foundTypes].
  destruct (Py.mem (Some name) (foundTypes st)) eqn:H.
  - now apply mem_In.
  - apply in_or_app. right. now left.
Qed.

Lemma genStructOrUnion_forward (nc : bool) (show : node -> string)
      (isUnion : bool) (tag : option string) (decls : option (list node))
      (explicit name : string) (isAnon : bool) (st : state) :
  emittedName explicit tag = Some name ->
  Py.mem (Some name) chapelKeywords = false ->
  no_decls decls = true ->
  genStructOrUnion nc show (aggregate isUnion tag decls) explicit isAnon st
  = (Ok tt, emit (register st name) [newline]).
Proof.
  unfold emittedName. intros Hname Hkw Hno.
  assert (Hfwd : forall tg tds,
             isStructOrUnionForwardDeclared tds (aggregate isUnion tg decls)
             = Ok true).
  { intros tg tds. unfold isStructOrUnionForwardDeclared, isStructOrUnionType.
    destruct isUnion, (List.length tds); cbn; now rewrite Hno. }
  destruct isUnion; cbn [aggregate] in Hfwd |- *;
    cbn [genStructOrUnion];
    (destruct (explicit =? "");
     [ cbn [attr_name]; unfold bind at 1; rewrite lift_Ok, Hname
     | unfold bind at 1; unfold ret at 1; injection Hname as -> ]);
    rewrite Hkw;
    unfold bind at 1; rewrite add_foundType_run;
    unfold bind at 1; unfold get_typeDefs at 1;
    unfold bind at 1; rewrite Hfwd, lift_Ok; reflexivity.
Qed.

(** X14.  An aggregate translated under a name that is no keyword is
    registered among the found types, whatever follows: also when it is
    only a forward declaration, for which nothing but an empty line is
    printed, and also when the translation of its members fails. *)
Theorem genStructOrUnion_registers_name :
  forall (nc : bool) (show : node -> string) (isUnion : bool)
         (tag : option string) (decls : option (list node))
         (explicit name : string) (isAnon : bool) (st : state),
    emittedName explicit tag = Some name ->
    Py.mem (Some name) chapelKeywords = false ->
    In name (foundTypes
               (snd (genStructOrUnion nc show (aggregate isUnion tag decls)
                                      explicit isAnon st)))
    /\ (no_decls decls = true ->
        genStructOrUnion nc show (aggregate isUnion tag decls) explicit
                         isAnon st
        = (Ok tt, emit (register st name) [newline])).
Proof.
  intros nc show isUnion tag decls explicit name isAnon st Hname Hkw.
  split; [|now apply genStructOrUnion_forward].
  destruct (no_decls decls) eqn:Hno.
  - rewrite (genStructOrUnion_forward nc show isUnion tag decls explicit name
               isAnon st Hname Hkw Hno).
    apply register_In.
  - destruct decls as [[|d ds]|]; try discriminate.
    rewrite (genStructOrUnion_defined nc show isUnion tag d ds explicit name
               isAnon st Hname Hkw).
    pose proof (framed_bind
                  (fieldLoop show (fun d => genStructOrUnion nc show d "" false)
                             (d :: ds) "")
                  (finishAggregate nc (aggregateHead isUnion isAnon name))) as F.
    unfold bind, framed in F.
    apply F; [| |apply register_In].
    + apply framed_fieldLoop. intros d' s' _ _.
      apply genStructOrUnion_is_framed.
    + apply framed_finishAggregate.
Qed.

Lemma genStructOrUnion_registers_name_witness :
  In "list" (foundTypes
               (snd (genStructOrUnion false noDump (Struct (Some "list") None)
                                      "" false initial)))
  /\ genStructOrUnion false noDump (Struct (Some "list") None) "" false initial
     = (Ok tt, emit (register initial "list") [newline]).
Proof.
  pose proof (genStructOrUnion_registers_name false noDump false (Some "list")
                None "" "list" false initial eq_refl eq_refl) as [H1 H2].
  exact (conj H1 (H2 eq_refl)).
Defined.

(** X15.  A typedef of an aggregate without member list is decided by
    the found types: when the tag is among them, the typedef becomes an
    alias of the tag (and is registered itself); when it is not, an
    empty record or union is declared under the key of the table. *)
Theorem typedef_of_opaque_aggregate :
  forall (nc : bool) (show : node -> string) (key name tag : string)
         (q tq : list string) (dn : option string) (isUnion : bool)
         (st : state),
    let td := Typedef name q
                (TypeDecl dn tq (aggregate isUnion (Some tag) None)) in
    (Py.mem (Some tag) (foundTypes st) = true ->
     dict_get c2chapel tag = None ->
     tag <> "" ->
     genTypedef nc show (Some key) (Some td) st
     = (Ok tt,
        emit (register st name)
          [("extern type " ++ name ++ " = " ++ tag ++ ";") ++ newline;
           newline]))
    /\
    (Py.mem (Some tag) (foundTypes st) = false ->
     genTypedef nc show (Some key) (Some td) st
     = (Ok tt,
        emit st
          (commentLines nc ("Opaque " ++ (if isUnion then "union" else "struct")
                            ++ "?")
           ++ [((if isUnion then "extern union " else "extern record ")
                ++ key ++ " {};" ++ newline) ++ newline]))).
Proof.
  intros nc show key name tag q tq dn isUnion st td. subst td. split.
  - intros Hfound Hreg Hne. apply String.eqb_neq in Hne.
    destruct isUnion; cbn [aggregate];
      unfold genTypedef, bind, get_foundTypes;
      repeat (cbn [attr_type attr_decls attr_name is_some rbind str_of];
              rewrite lift_Ok);
      rewrite Hfound; cbn [negb];
      unfold genTypeAlias, bind;
      repeat (cbn [attr_type attr_decls attr_name is_some rbind str_of];
              rewrite lift_Ok);
      rewrite toChapelType_TypeDecl; cbn [getDeclName];
        rewrite Hreg, lift_Ok; cbn [str_of rbind opt_eqb]; rewrite Hne;
        rewrite lift_Ok, print_run, lift_Ok, add_foundType_run, print_run;
        rewrite <- emit_register, emit_emit; reflexivity.
  - intros Hfound.
    destruct isUnion; cbn [aggregate];
      unfold genTypedef, bind, get_foundTypes;
      repeat (cbn [attr_type attr_decls attr_name is_some rbind str_of];
              rewrite lift_Ok);
      rewrite Hfound; cbn [negb is_Union str_of];
      rewrite genComment_run, lift_Ok, print_run, emit_emit; reflexivity.
Qed.

Lemma typedef_of_opaque_aggregate_witness :
  genTypedef false noDump (Some "list_t")
    (Some (Typedef "list_t" []
             (TypeDecl (Some "list_t") [] (Struct (Some "list") None))))
    (register initial "list")
  = (Ok tt,
     emit (register (register initial "list") "list_t")
       ["extern type list_t = list;" ++ newline; newline])
  /\ genTypedef false noDump (Some "list_t")
       (Some (Typedef "list_t" []
                (TypeDecl (Some "list_t") [] (Struct (Some "list") None))))
       initial
     = (Ok tt,
        emit initial
          (commentLines false "Opaque struct?"
           ++ [("extern record list_t {};" ++ newline) ++ newline])).
Proof.
  split.
  - refine (proj1 (typedef_of_opaque_aggregate false noDump "list_t" "list_t"
                     "list" [] [] (Some "list_t") false
                     (register initial "list")) eq_refl eq_refl _).
    discriminate.
  - exact (proj2 (typedef_of_opaque_aggregate false noDump "list_t" "list_t"
                     "list" [] [] (Some "list_t") false initial) eq_refl).
Defined.

Lemma isPointerToStruct_pointerTo (q : list string) (qs : list (list string))
      (dn : option string) (tq : list string) (tag : option string)
      (decls : option (list node)) :
  isPointerToStruct (pointerTo (q :: qs) (TypeDecl dn tq (Struct tag decls)))
  = true.
Proof.
  revert q. induction qs as [|q' qs IH]; intros q.
  - reflexivity.
  - exact (IH q').
Qed.

Lemma isPointerToStruct_union (qs : list (list string))
      (dn : option string) (tq : list string) (tag : option string)
      (decls : option (list node)) :
  isPointerToStruct (pointerTo qs (TypeDecl dn tq (Union tag decls))) = false.
Proof.
  induction qs as [|q qs IH]; [reflexivity|].
  destruct qs as [|q' qs]; [reflexivity|exact IH].
Qed.

Lemma isPointerToUnion_pointerTo (q : list string) (qs : list (list string))
      (dn : option string) (tq : list string) (tag : option string)
      (decls : option (list node)) :
  isPointerToUnion (pointerTo (q :: qs) (TypeDecl dn tq (Union tag decls)))
  = true.
Proof.
  revert q. induction qs as [|q' qs IH]; intros q.
  - reflexivity.
  - exact (IH q').
Qed.

(** X16.  A typedef of a pointer, of any depth, to a struct or union is
    declared as an opaque type after a comment, whether or not the
    aggregate carries a member list; the found types stay as they
    were. *)
Theorem typedef_of_pointer_to_aggregate :
  forall (nc : bool) (show : node -> string) (key : option string)
         (name : string) (tdq q : list string) (qs : list (list string))
         (dn : option string) (tq : list string) (isUnion : bool)
         (tag : option string) (decls : option (list node)) (st : state),
    genTypedef nc show key
      (Some (Typedef name tdq
               (pointerTo (q :: qs)
                  (TypeDecl dn tq (aggregate isUnion tag decls))))) st
    = (Ok tt,
       emit st
         (commentLines nc ("Typedef'd pointer to "
                           ++ (if isUnion then "union" else "struct"))
          ++ [("extern type " ++ name ++ ";" ++ newline) ++ newline])).
Proof.
  intros.
  assert (Hinner : exists inner,
             attr_type (pointerTo (q :: qs)
                          (TypeDecl dn tq (aggregate isUnion tag decls)))
             = Ok inner /\ is_aggregate inner = false /\ is_Enum inner = false).
  { destruct qs as [|q' qs]; cbn [pointerTo attr_type]; eexists;
      (split; [reflexivity|split; reflexivity]). }
  destruct Hinner as (inner & Hty & Hagg & _).
  unfold genTypedef, bind. cbn [attr_type]. rewrite lift_Ok, Hty, lift_Ok.
  destruct isUnion; cbn [aggregate] in *.
  - rewrite isPointerToStruct_union, isPointerToUnion_pointerTo.
    destruct inner; try discriminate;
      rewrite genComment_run; cbn [attr_name rbind str_of];
      rewrite lift_Ok, print_run, emit_emit; reflexivity.
  - rewrite isPointerToStruct_pointerTo.
    destruct inner; try discriminate;
      rewrite genComment_run; cbn [attr_name rbind str_of];
      rewrite lift_Ok, print_run, emit_emit; reflexivity.
Qed.

(** X17.  A typedef of an array type or of a function type is dropped:
    nothing is printed for it and nothing is registered. *)
Theorem typedef_of_array_or_function_is_dropped :
  forall (nc : bool) (show : node -> string) (key : option string)
         (name : string) (q : list string) (ty inner : node) (st : state),
    arrayOrFunction ty = true ->
    attr_type ty = Ok inner ->
    is_aggregate inner = false ->
    is_Enum inner = false ->
    genTypedef nc show key (Some (Typedef name q ty)) st = (Ok tt, st).
Proof.
  intros nc show key name q ty inner st Hty Hinner Hagg Henum.
  unfold genTypedef, bind. cbn [attr_type]. rewrite lift_Ok, Hinner, lift_Ok.
  assert (Hps : isPointerToStruct ty = false) by (now destruct ty).
  assert (Hpu : isPointerToUnion ty = false) by (now destruct ty).
  assert (Halias : genTypeAlias show (Typedef name q ty) st = (Ok tt, st)).
  { unfold genTypeAlias, bind. cbn [attr_name attr_type]. rewrite !lift_Ok.
    now destruct ty. }
  destruct inner; try discriminate; now rewrite Hps, Hpu, ?Henum.
Qed.

Lemma typedef_of_array_or_function_is_dropped_witness :
  genTypedef false noDump (Some "row_t")
    (Some (Typedef "row_t" []
             (ArrayDecl (named ["int"] "row_t" []) (Some (Constant "4")))))
    initial
  = (Ok tt, initial).
Proof.
  exact (typedef_of_array_or_function_is_dropped false noDump (Some "row_t")
           "row_t" []
           (ArrayDecl (named ["int"] "row_t" []) (Some (Constant "4")))
           (named ["int"] "row_t" []) initial
           eq_refl eq_refl eq_refl eq_refl).
Defined.

Lemma forM_print_lift (show : node -> string) (f : string -> string)
      (l : list string) (st : state) :
  forM_ l (fun x => line <~ lift show (Ok (f x)) ;; print line) st
  = (Ok tt, emit st (map (fun x => f x ++ newline) l)).
Proof.
  unfold forM_. revert st.
  induction l as [|x l IH]; intros st; cbn [mapM_ map].
  - now rewrite emit_nil.
  - unfold bind. rewrite lift_Ok, print_run, IH, emit_emit. reflexivity.
Qed.

(** X18.  A typedef of an enumeration is declared as an alias of
    [c_int], after a comment, and is followed by one constant of the
    typedef's type for each enumerator, in their order: the three nested
    loops of [genTypeEnum] come to one pass over the enumerators. *)
Theorem typedef_of_enum :
  forall (nc : bool) (show : node -> string) (key : option string)
         (name dn : string) (q tq : list string) (tag : option string)
         (vals : list string) (st : state),
    genTypedef nc show key
      (Some (Typedef name q (TypeDecl (Some dn) tq (Enum tag (Some vals)))))
      st
    = (Ok tt,
       emit st
         (commentLines nc (name ++ " enum")
          ++ [("extern type " ++ name ++ " = c_int;") ++ newline]
          ++ map (fun v => ("extern const " ++ v ++ " :" ++ dn ++ ";")
                           ++ newline) vals
          ++ [newline ++ newline])).
Proof.
  intros.
  unfold genTypedef, bind.
  repeat (cbn [attr_type attr_name rbind str_of isPointerToStruct
               isPointerToUnion is_Enum]; rewrite lift_Ok).
  rewrite genComment_run, print_run.
  unfold genTypeEnum, bind. cbn [attr_type is_Enum children].
  rewrite lift_Ok. cbn [is_Enum]. unfold forM_ at 1. cbn [mapM_]. unfold bind.
  cbn [enumeratorsUnder attr_declname rbind str_of]. rewrite lift_Ok.
  rewrite (forM_print_lift show
             (fun v => "extern const " ++ v ++ " :" ++ dn ++ ";")).
  unfold ret. rewrite print_run, !emit_emit. reflexivity.
Qed.

(** X19.  A variable declared with an initialiser stops the run: the
    variable is declared first, then the declaration is dumped and the
    error "Unhandled declaration" is raised. *)
Theorem initialised_variable_is_unhandled :
  forall (nc : bool) (show : node -> string) (nm : option string)
         (q : list string) (ty init : node) (bits : option node)
         (st st1 : state),
    let decl := Decl nm q ty (Some init) bits in
    variableType ty = true ->
    dispatched init = false ->
    genVar show decl st = (Ok tt, st1) ->
    visit_Decl nc false show decl st
    = (Raise (Exception "Unhandled declaration"), emit st1 [show decl]).
Proof.
  intros nc show nm q ty init bits st st1 decl Hty Hinit Hvar.
  unfold visit_Decl, forM_. subst decl. cbn [children opt_list app mapM_].
  unfold bind at 1. unfold ret at 1.
  unfold bind at 1.
  assert (Hfirst :
            match ty with
            | Struct _ _ | Union _ _ => visit_StructOrUnion nc show ty
            | FuncDecl _ _ => visit_FuncDecl nc show ty
            | Enum _ _ => genEnum nc show ty
            | TypeDecl _ _ _ | PtrDecl _ _ | ArrayDecl _ _ =>
                genVar show (Decl nm q ty (Some init) bits)
            | _ => write (show (Decl nm q ty (Some init) bits)) >>
                   raise show (Exception "Unhandled declaration")
            end st = (Ok tt, st1)).
  { destruct ty; try discriminate; exact Hvar. }
  rewrite Hfirst.
  unfold bind at 1.
  destruct init; try discriminate; reflexivity.
Qed.

Lemma initialised_variable_is_unhandled_witness :
  visit_Decl false false noDump initialised_variable initial
  = (Raise (Exception "Unhandled declaration"),
     emit (emit initial ["extern var limit : c_int;" ++ newline; newline])
          [noDump initialised_variable]).
Proof.
  exact (initialised_variable_is_unhandled false noDump (Some "limit") []
           (named ["int"] "limit" []) (Constant "3") None initial
           (emit initial ["extern var limit : c_int;" ++ newline; newline])
           eq_refl eq_refl eq_refl).
Defined.

Lemma key_eqb_refl (k : option string) : key_eqb k k = true.
Proof. destruct k as [s|]; [apply String.eqb_refl|reflexivity]. Qed.

Lemma td_get_set (d : typedefs) (k : option string) (v : option node) :
  td_get (td_set d k v) k = Some v.
Proof.
  induction d as [|[k' v'] d IH]; cbn [td_set td_get].
  - now rewrite key_eqb_refl.
  - destruct (key_eqb k' k) eqn:E; cbn [td_get]; now rewrite E.
Qed.

Lemma visit_StructOrUnion_defined (nc : bool) (show : node -> string)
      (isUnion : bool) (name : option string) (d : node) (ds : list node)
      (st st1 : state) :
  visit_StructOrUnion nc show (aggregate isUnion name (Some (d :: ds))) st
  = (Ok tt, st1) ->
  typeDefs st1 = td_set (typeDefs st) name None.
Proof.
  intros H. unfold visit_StructOrUnion, bind in H.
  pose proof (genStructOrUnion_is_framed nc show
                (aggregate isUnion name (Some (d :: ds))) "" false st)
    as (HT & _).
  destruct (genStructOrUnion nc show _ "" false st) as [[[]|e] st'];
    [|discriminate H].
  cbn [snd] in HT. unfold get_typeDefs in H.
  assert (Hfwd : isStructOrUnionForwardDeclared (typeDefs st')
                   (aggregate isUnion name (Some (d :: ds))) = Ok false).
  { unfold isStructOrUnionForwardDeclared, isStructOrUnionType.
    destruct isUnion, (List.length (typeDefs st')); reflexivity. }
  rewrite Hfwd, lift_Ok in H.
  assert (Hname : attr_name (aggregate isUnion name (Some (d :: ds)))
                  = Ok name) by (now destruct isUnion).
  rewrite Hname, lift_Ok in H. unfold set_typeDef in H.
  injection H as <-. cbn [typeDefs]. now rewrite HT.
Qed.

(** X20.  The definition of a struct or union with members takes its
    tag out of the typedef table: after it is visited the tag is mapped
    to no typedef, and a typedef of that name visited later is not
    recorded. *)
Theorem defined_aggregate_blocks_typedef :
  forall (nc : bool) (show : node -> string) (isUnion : bool)
         (name : string) (d : node) (ds : list node) (st st1 : state),
    visit_StructOrUnion nc show
      (aggregate isUnion (Some name) (Some (d :: ds))) st = (Ok tt, st1) ->
    td_get (typeDefs st1) (Some name) = Some None
    /\ forall (q : list string) (ty : node),
         visit_Typedef show (Typedef name q ty) st1 = (Ok tt, st1).
Proof.
  intros nc show isUnion name d ds st st1 H.
  apply visit_StructOrUnion_defined in H.
  assert (Hget : td_get (typeDefs st1) (Some name) = Some None).
  { rewrite H. apply td_get_set. }
  split; [exact Hget|].
  intros q ty. unfold visit_Typedef, bind, get_typeDefs.
  cbn [attr_name]. rewrite lift_Ok. unfold td_mem. now rewrite Hget.
Qed.

Lemma defined_aggregate_blocks_typedef_witness :
  let st1 := snd (visit_StructOrUnion false noDump keyword_struct initial) in
  td_get (typeDefs st1) (Some "S") = Some None
  /\ forall (q : list string) (ty : node),
       visit_Typedef noDump (Typedef "S" q ty) st1 = (Ok tt, st1).
Proof.
  apply (defined_aggregate_blocks_typedef false noDump false "S"
           (field "a" (IdentifierType ["int"]))
           [field "type" (IdentifierType ["int"]);
            field "c" (IdentifierType ["int"])] initial).
  vm_compute. reflexivity.
Defined.

(** X21.  A parameter passed by value whose type is a name that the
    typedef table maps to no typedef (the tag of an aggregate defined
    earlier) stops the translation of the function with the error of an
    attribute read on [None]. *)
Theorem pruned_name_parameter_raises :
  forall (tds : typedefs) (i : nat) (a : option string) (q : list string)
         (i0 b0 : option node) (dn : option string) (tq : list string)
         (T : string) (rest : list node) (f pf : list string),
    td_get tds (Some T) = Some None ->
    dict_get c2chapel T = None ->
    T <> "" ->
    computeArgs_loop tds i
      (Decl a q (TypeDecl dn tq (IdentifierType [T])) i0 b0 :: rest) f pf
    = Raise (AttributeError "type").
Proof.
  intros tds i a q i0 b0 dn tq T rest f pf Htd Hreg Hne.
  apply String.eqb_neq in Hne.
  assert (Ht : toChapelType (TypeDecl dn tq (IdentifierType [T]))
               = Ok (Some T)).
  { rewrite toChapelType_TypeDecl. cbn [getDeclName Py.join String.concat].
    now rewrite Hreg. }
  assert (Hs : isStructOrUnionType tds (TypeDecl dn tq (IdentifierType [T]))
               = Raise (AttributeError "type")).
  { unfold isStructOrUnionType.
    destruct tds as [|e tds']; [discriminate Htd|].
    cbn [List.length isStructOrUnionType_rec Py.join String.concat].
    now rewrite Htd. }
  cbn [computeArgs_loop attr_type rbind].
  rewrite (getIntentInfo_value (TypeDecl dn tq (IdentifierType [T])) (Some T)
             eq_refl Ht).
  cbn [rbind].
  assert (Hn : exists x, computeArgName
                           (Decl a q (TypeDecl dn tq (IdentifierType [T])) i0 b0)
                         = Ok x).
  { destruct a as [s|]; [|now exists None].
    unfold computeArgName. destruct (Py.mem (Some s) chapelKeywords);
      now eexists. }
  destruct Hn as (x & ->). cbn [rbind opt_eqb]. rewrite Hne.
  cbn [negb String.eqb]. now rewrite Hs.
Qed.

Lemma pruned_name_parameter_raises_witness :
  computeArgs_loop
    (typeDefs (snd (visit_StructOrUnion false noDump keyword_struct initial)))
    0 [param "s" (named ["S"] "s" [])] [] []
  = Raise (AttributeError "type").
Proof.
  apply pruned_name_parameter_raises; [reflexivity|reflexivity|discriminate].
Defined.

(** X22.  A variable declared together with its struct or union type
    gives the declaration of the variable only: the members of the
    aggregate are not translated and no type is registered.  When the
    aggregate has no tag, the run stops with a type error and nothing
    printed. *)
Theorem variable_of_aggregate_type :
  forall (nc : bool) (show : node -> string) (x : string) (q : list string)
         (dn : option string) (tq : list string) (isUnion : bool)
         (tag : option string) (decls : option (list node)) (st : state),
    Py.mem (Some x) chapelKeywords = false ->
    let decl := Decl (Some x) q (TypeDecl dn tq (aggregate isUnion tag decls))
                     None None in
    (forall t, tag = Some t -> dict_get c2chapel t = None ->
               visit_Decl nc false show decl st
               = (Ok tt,
                  emit st [("extern var " ++ x ++ " : " ++ t ++ ";")
                           ++ newline; newline]))
    /\ (tag = None ->
        visit_Decl nc false show decl st = (Raise TypeError, st)).
Proof.
  intros nc show x q dn tq isUnion tag decls st Hkw decl. subst decl.
  assert (Hname : getDeclName (TypeDecl dn tq (aggregate isUnion tag decls))
                  = Ok tag) by (now destruct isUnion).
  split.
  - intros t -> Hreg.
    unfold visit_Decl, forM_. cbn [children opt_list app mapM_].
    unfold bind at 1. unfold ret at 1. unfold bind at 1.
    unfold genVar, bind. cbn [attr_name attr_type rbind].
    rewrite lift_Ok, Hkw. unfold ret at 1.
    rewrite toChapelType_TypeDecl, Hname, Hreg, lift_Ok.
    cbn [str_of rbind]. rewrite lift_Ok, !print_run, emit_emit. reflexivity.
  - intros ->.
    unfold visit_Decl, forM_. cbn [children opt_list app mapM_].
    unfold bind at 1. unfold ret at 1. unfold bind at 1.
    unfold genVar, bind. cbn [attr_name attr_type rbind].
    rewrite lift_Ok, Hkw. unfold ret at 1.
    rewrite toChapelType_TypeDecl, Hname, lift_Ok.
    cbn [str_of rbind]. reflexivity.
Qed.

Lemma variable_of_aggregate_type_witness :
  visit_Decl false false noDump
    (Decl (Some "origin") []
       (TypeDecl (Some "origin") []
          (Struct (Some "point") (Some [field "x" (IdentifierType ["int"])])))
       None None) initial
  = (Ok tt, emit initial ["extern var origin : point;" ++ newline; newline])
  /\ visit_Decl false false noDump
       (Decl (Some "origin") []
          (TypeDecl (Some "origin") []
             (Struct None (Some [field "x" (IdentifierType ["int"])])))
          None None) initial
     = (Raise TypeError, initial).
Proof.
  split.
  - exact (proj1 (variable_of_aggregate_type false noDump "origin" []
                    (Some "origin") [] false (Some "point")
                    (Some [field "x" (IdentifierType ["int"])]) initial
                    eq_refl) "point" eq_refl eq_refl).
  - exact (proj2 (variable_of_aggregate_type false noDump "origin" []
                    (Some "origin") [] false None
                    (Some [field "x" (IdentifierType ["int"])]) initial
                    eq_refl) eq_refl).
Defined.

(** X23.  An enumeration declared at file level gives a comment with
    its tag, or "anonymous" without one, one [c_int] constant for each
    enumerator and an empty line; an enumeration without enumerator list
    stops the run, after the comment, with an attribute error. *)
Theorem enum_declaration :
  forall (nc : bool) (show : node -> string) (tag : option string)
         (st : state),
    (forall vals,
        genEnum nc show (Enum tag (Some vals)) st
        = (Ok tt,
           emit st
             (commentLines nc ("Enum: " ++ enumLabel tag)
              ++ map (fun v => ("extern const " ++ v ++ " :c_int;")
                               ++ newline) vals
              ++ [newline ++ newline])))
    /\ genEnum nc show (Enum tag None) st
       = (Raise (AttributeError "enumerators"),
          emit st (commentLines nc ("Enum: " ++ enumLabel tag))).
Proof.
  intros nc show tag st.
  assert (Hc : (if truthy tag
                then n <~ lift show (str_of tag) ;;
                     genComment nc ("Enum: " ++ n)
                else genComment nc "Enum: anonymous") st
               = (Ok tt, emit st (commentLines nc ("Enum: " ++ enumLabel tag)))).
  { destruct tag as [[|c s]|]; cbn [truthy enumLabel str_of];
      apply genComment_run. }
  split.
  - intros vals. cbn [genEnum]. unfold bind at 1. rewrite Hc.
    unfold bind.
    rewrite (forM_print (fun v => "extern const " ++ v ++ " :c_int;")).
    rewrite print_run, !emit_emit. reflexivity.
  - cbn [genEnum]. unfold bind at 1. now rewrite Hc.
Qed.

Lemma collectIgnores_absent (ignores : list string) (acc : typedefs)
      (st : state) :
  (forall i, In i ignores -> td_get (typeDefs st) (Some i) = None) ->
  collectIgnores ignores acc st = (Ok acc, st).
Proof.
  revert acc. induction ignores as [|i rest IH]; intros acc H;
    cbn [collectIgnores].
  - reflexivity.
  - unfold bind, get_typeDefs. rewrite (H i (or_introl eq_refl)).
    apply IH. intros j Hj. apply H. now right.
Qed.

(** X24.  With no typedef left in the table and no ignored name among
    its keys, the typedef pass prints nothing, not even its heading. *)
Theorem handleTypedefs_silent_without_typedefs :
  forall (nc : bool) (show : node -> string) (ignores : list string)
         (st : state),
    numDefs (typeDefs st) = 0 ->
    (forall i, In i ignores -> td_get (typeDefs st) (Some i) = None) ->
    handleTypedefs nc show ignores st = (Ok tt, st).
Proof.
  intros nc show ignores st Hnum Habs.
  unfold handleTypedefs. unfold bind at 1.
  rewrite (collectIgnores_absent ignores [] st Habs).
  unfold bind at 1. unfold get_typeDefs at 1.
  rewrite Hnum. reflexivity.
Qed.

Lemma handleTypedefs_silent_without_typedefs_witness :
  let st := snd (visit_StructOrUnion false noDump keyword_struct initial) in
  handleTypedefs false noDump ["size_t"; "FILE"] st = (Ok tt, st).
Proof.
  apply handleTypedefs_silent_without_typedefs.
  - reflexivity.
  - intros i [<-|[<-|[]]]; reflexivity.
Defined.

Lemma getFunctionName_pointerTo (qs : list (list string)) (t : node) :
  getFunctionName (pointerTo qs t) = getFunctionName t.
Proof. induction qs as [|q qs IH]; [reflexivity|exact IH]. Qed.

(** X25.  The name of a function is the declared name at the bottom of
    its return type, under any number of pointer levels, also when the
    function type itself is under pointers (a function pointer). *)
Theorem getFunctionName_under_pointers :
  forall (outer inner : list (list string)) (args : option (list node))
         (dn : option string) (q : list string) (t : node),
    getFunctionName
      (pointerTo outer (FuncDecl args (pointerTo inner (TypeDecl dn q t))))
    = Ok dn.
Proof.
  intros. rewrite getFunctionName_pointerTo. cbn [getFunctionName].
  now rewrite getFunctionName_pointerTo.
Qed.

Lemma keyword_arg_not_keyword (n : string) :
  Py.mem (Some n) chapelKeywords = true ->
  Py.mem (Some (n ++ "_arg")) chapelKeywords = false.
Proof.
  intros H. apply mem_In in H.
  assert (A : forallb (fun k => negb (Py.mem (Some (k ++ "_arg"))
                                             chapelKeywords))
                      chapelKeywords = true) by (vm_compute; reflexivity).
  rewrite forallb_forall in A. specialize (A n H).
  now apply negb_true_iff in A.
Qed.

(** X26.  The name computed for a formal is never a Chapel keyword: a
    keyword gets the suffix "_arg", and no keyword ends that way. *)
Theorem computeArgName_never_keyword :
  forall (decl : node) (name : option string),
    computeArgName decl = Ok name ->
    Py.mem name chapelKeywords = false.
Proof.
  intros decl name H. destruct decl; try discriminate H; cbn [computeArgName] in H.
  - destruct (Py.mem name0 chapelKeywords) eqn:E.
    + destruct name0 as [n|]; [|discriminate H]. cbn [str_of rbind] in H.
      injection H as <-. now apply keyword_arg_not_keyword.
    + now injection H as <-.
  - injection H as <-. vm_compute. reflexivity.
Qed.

Lemma computeArgName_never_keyword_witness :
  Py.mem (Some "type_arg") chapelKeywords = false.
Proof.
  exact (computeArgName_never_keyword
           (param "type" (named ["int"] "type" [])) (Some "type_arg") eq_refl).
Defined.

(** ** The ignored typedef names *)

Lemma prefix_nil (s : string) : String.prefix "" s = true.
Proof. now destruct s. Qed.

Lemma prefix_cons (a b : ascii) (p s : string) :
  String.prefix (String a p) (String b s)
  = if Ascii.eqb a b then String.prefix p s else false.
Proof.
  cbn [String.prefix]. destruct (ascii_dec a b) as [->|N].
  - now rewrite Ascii.eqb_refl.
  - apply Ascii.eqb_neq in N. now rewrite N.
Qed.

Lemma prefix_app (p a x : string) :
  String.prefix p a = true -> String.prefix p (a ++ x) = true.
Proof.
  revert a. induction p as [|c p IH]; intros a H.
  - apply prefix_nil.
  - destruct a as [|d a]; [discriminate H|].
    cbn [append]. rewrite prefix_cons in *.
    destruct (Ascii.eqb c d); [now apply IH|discriminate H].
Qed.

Lemma hasChar_app (c : ascii) (a b : string) :
  hasChar c (a ++ b) = hasChar c a || hasChar c b.
Proof.
  induction a as [|d a IH]; cbn [append hasChar]; [reflexivity|].
  now rewrite IH, orb_assoc.
Qed.

Lemma allChars_hasChar (p : ascii -> bool) (c : ascii) (s : string) :
  allChars p s = true -> p c = false -> hasChar c s = false.
Proof.
  intros H Hc. induction s as [|d s IH]; cbn [hasChar allChars] in *.
  - reflexivity.
  - apply andb_true_iff in H as [Hd Hs]. rewrite (IH Hs), orb_false_r.
    destruct (Ascii.eqb c d) eqn:E; [|reflexivity].
    apply Ascii.eqb_eq in E. subst. congruence.
Qed.

Lemma prefix_hasChar (c : ascii) (p s : string) :
  String.prefix p s = true -> hasChar c p = true -> hasChar c s = true.
Proof.
  revert s. induction p as [|x p IH]; intros s H Hc; [discriminate Hc|].
  destruct s as [|y s]; [discriminate H|]. rewrite prefix_cons in H.
  destruct (Ascii.eqb x y) eqn:E; [|discriminate H].
  apply Ascii.eqb_eq in E. subst y. cbn [hasChar] in *.
  destruct (Ascii.eqb c x); [reflexivity|]. cbn [orb] in *. now apply IH.
Qed.

Lemma contains_hasChar (c : ascii) (p s : string) :
  hasChar c p = true -> hasChar c s = false -> PyStr.contains p s = false.
Proof.
  intros Hp. induction s as [|d s IH]; intros Hs; cbn [PyStr.contains].
  - destruct p; [discriminate Hp|reflexivity].
  - destruct (String.prefix p (String d s)) eqn:E.
    + pose proof (prefix_hasChar c _ _ E Hp). congruence.
    + cbn [hasChar] in Hs. apply orb_false_iff in Hs as [_ Hs].
      now rewrite (IH Hs).
Qed.

Lemma replace_absent (old new s : string) :
  PyStr.contains old s = false -> PyStr.replace_aux old new s 0 = s.
Proof.
  induction s as [|c s IH]; intros H; [reflexivity|].
  cbn [PyStr.contains] in H. apply orb_false_iff in H as [H1 H2].
  cbn [PyStr.replace_aux]. now rewrite H1, (IH H2).
Qed.

Lemma replace_skip (old new a s : string) :
  PyStr.replace_aux old new (a ++ s) (String.length a)
  = PyStr.replace_aux old new s 0.
Proof.
  induction a as [|c a IH]; [reflexivity|].
  cbn [append String.length PyStr.replace_aux]. exact IH.
Qed.

Lemma replace_head (c : ascii) (p new s : string) :
  PyStr.replace (String c p) new (String c p ++ s)
  = new ++ PyStr.replace (String c p) new s.
Proof.
  unfold PyStr.replace.
  change (String c p ++ s) with (String c (p ++ s)) at 1.
  cbn [PyStr.replace_aux].
  change (String c (p ++ s)) with (String c p ++ s).
  rewrite prefix_append.
  replace (String.length (String c p) - 1)%nat with (String.length p)
    by (cbn [String.length]; lia).
  now rewrite replace_skip.
Qed.

Lemma clash_prefix (p b t : string) :
  clash p b = true -> String.prefix p (b ++ t) = false.
Proof.
  revert b. induction p as [|x p IH]; intros b H; [discriminate H|].
  destruct b as [|y b]; [discriminate H|].
  cbn [clash] in H. cbn [append]. rewrite prefix_cons.
  destruct (Ascii.eqb x y); [now apply IH|reflexivity].
Qed.

Lemma replace_clashAll (old new b t : string) :
  clashAll old b = true ->
  PyStr.replace_aux old new (b ++ t) 0 = b ++ PyStr.replace_aux old new t 0.
Proof.
  induction b as [|c b IH]; intros H; [reflexivity|].
  cbn [clashAll] in H. apply andb_true_iff in H as [H1 H2].
  change (String c b ++ t) with (String c (b ++ t)) at 1.
  cbn [PyStr.replace_aux].
  change (String c (b ++ t)) with (String c b ++ t) at 1.
  rewrite (clash_prefix _ _ t H1), (IH H2). reflexivity.
Qed.

(** A head that is not the one replaced stays; the one replaced goes;
    a text without blank holds none of them. *)
Lemma replace_rest (old rest : string) :
  hasChar " " old = true -> hasChar " " rest = false ->
  PyStr.replace old "" rest = rest.
Proof.
  intros Ho Hr. apply replace_absent. now apply (contains_hasChar " ").
Qed.

Lemma replace_other (old head rest : string) :
  clashAll old head = true ->
  hasChar " " old = true -> hasChar " " rest = false ->
  PyStr.replace old "" (head ++ rest) = head ++ rest.
Proof.
  intros Hc Ho Hr. unfold PyStr.replace.
  rewrite (replace_clashAll _ _ _ _ Hc). f_equal.
  exact (replace_rest old rest Ho Hr).
Qed.

Lemma replace_same (old rest : string) :
  hasChar " " old = true -> hasChar " " rest = false ->
  PyStr.replace old "" (old ++ rest) = rest.
Proof.
  intros Ho Hr. destruct old as [|c p]; [discriminate Ho|].
  rewrite replace_head. now rewrite (replace_rest _ rest Ho Hr).
Qed.

Lemma replace_char_app (c : ascii) (new a s : string) :
  hasChar c a = false ->
  PyStr.replace_aux (String c "") new (a ++ s) 0
  = a ++ PyStr.replace_aux (String c "") new s 0.
Proof.
  induction a as [|d a IH]; intros H; [reflexivity|].
  cbn [hasChar] in H. apply orb_false_iff in H as [H1 H2].
  change (String d a ++ s) with (String d (a ++ s)) at 1.
  cbn [PyStr.replace_aux]. rewrite prefix_cons, H1, (IH H2). reflexivity.
Qed.

Lemma rstrip_ident (name : string) :
  allChars is_ident name = true -> PyStr.rstrip name = name.
Proof.
  induction name as [|c n IH]; intros H; [reflexivity|].
  cbn [allChars] in H. apply andb_true_iff in H as [Hc Hn].
  cbn [PyStr.rstrip]. rewrite (IH Hn).
  destruct n; [now rewrite (ident_not_space c Hc)|reflexivity].
Qed.

Lemma rstrip_ident_newline (name : string) :
  allChars is_ident name = true -> PyStr.rstrip (name ++ newline) = name.
Proof.
  induction name as [|c n IH]; intros H; [reflexivity|].
  cbn [allChars] in H. apply andb_true_iff in H as [Hc Hn].
  cbn [append PyStr.rstrip]. rewrite (IH Hn).
  destruct n; [now rewrite (ident_not_space c Hc)|reflexivity].
Qed.

Lemma drop_while_ident (name t : string) :
  allChars is_ident name = true -> name <> "" ->
  drop_while is_space (name ++ t) = name ++ t.
Proof.
  intros H Hne. destruct name as [|c n]; [contradiction|].
  cbn [allChars] in H. apply andb_true_iff in H as [Hc _].
  cbn [append drop_while]. now rewrite (ident_not_space c Hc).
Qed.

Lemma strip_ident_newline (name : string) :
  allChars is_ident name = true -> PyStr.strip (name ++ newline) = name.
Proof.
  intros H. unfold PyStr.strip. destruct name as [|c n]; [reflexivity|].
  rewrite drop_while_ident by (assumption || discriminate).
  now apply rstrip_ident_newline.
Qed.

Lemma strip_ident (name : string) :
  allChars is_ident name = true -> PyStr.strip name = name.
Proof.
  intros H. unfold PyStr.strip. destruct name as [|c n]; [reflexivity|].
  rewrite <- (append_nil_r (String c n)) at 1.
  rewrite drop_while_ident by (assumption || discriminate).
  rewrite append_nil_r. now apply rstrip_ident.
Qed.

Lemma set_add_In (x y : string) (s : list string) :
  In y (set_add x s) <-> y = x \/ In y s.
Proof.
  unfold set_add. destruct (Py.mem (Some x) s) eqn:E.
  - split; [now right|]. intros [->|H]; [now apply mem_In|exact H].
  - rewrite in_app_iff. cbn [In]. intuition congruence.
Qed.

Lemma findIgnores_loop_In (lines ret : list string) (x : string) :
  In x (findIgnores_loop lines ret)
  <-> In x ret \/ exists line, In line lines /\ ignoredName line = Some x.
Proof.
  revert ret. induction lines as [|l lines IH]; intros ret;
    cbn [findIgnores_loop].
  - split; [now left|]. now intros [H|(line & [] & _)].
  - rewrite IH. split.
    + intros [H|(line & Hl & Hx)].
      * destruct (ignoredName l) as [y|] eqn:E; [|now left].
        apply set_add_In in H as [->|H]; [|now left].
        right. exists l. split; [now left|exact E].
      * right. exists line. split; [now right|exact Hx].
    + intros [H|(line & [<-|Hl] & Hx)].
      * left. destruct (ignoredName l); [|exact H].
        apply set_add_In. now right.
      * left. rewrite Hx. apply set_add_In. now left.
      * right. now exists line.
Qed.

Lemma ignoredName_simple (head name : string) :
  In head simpleHeads ->
  allChars is_ident name = true ->
  ignoredName (head ++ name ++ ";" ++ newline) = Some name.
Proof.
  intros Hin Hname.
  assert (Hsemi : hasChar ";" name = false)
    by (now apply (allChars_hasChar is_ident)).
  assert (Hrest : hasChar " " (name ++ newline) = false).
  { rewrite hasChar_app, (allChars_hasChar is_ident " " name Hname eq_refl).
    reflexivity. }
  assert (Hstart : Py.startswith "typedef" head = true)
    by (destruct Hin as [<-|[<-|[<-|[<-|[]]]]]; reflexivity).
  assert (Hhead : hasChar ";" head = false)
    by (destruct Hin as [<-|[<-|[<-|[<-|[]]]]]; reflexivity).
  assert (Hfirst : PyStr.replace ";" "" (head ++ name ++ ";" ++ newline)
                   = head ++ name ++ newline).
  { rewrite <- append_assoc. unfold PyStr.replace.
    rewrite replace_char_app by (now rewrite hasChar_app, Hhead, Hsemi).
    rewrite append_assoc. reflexivity. }
  unfold ignoredName. unfold Py.startswith in *.
  rewrite (prefix_app _ _ _ Hstart). cbv zeta. rewrite Hfirst.
  assert (Hgone :
            PyStr.replace "typedef void* " ""
              (PyStr.replace "typedef _Bool " ""
                 (PyStr.replace "typedef uint32_t " ""
                    (PyStr.replace "typedef int " ""
                       (head ++ name ++ newline))))
            = name ++ newline).
  { destruct Hin as [<-|[<-|[<-|[<-|[]]]]];
      repeat match goal with
        | |- context [PyStr.replace ?o "" (?o ++ name ++ newline)] =>
            rewrite (replace_same o (name ++ newline) eq_refl Hrest)
        | |- context [PyStr.replace ?o "" (?h ++ name ++ newline)] =>
            rewrite (replace_other o h (name ++ newline) eq_refl eq_refl Hrest)
        | |- context [PyStr.replace ?o "" (name ++ newline)] =>
            rewrite (replace_rest o (name ++ newline) eq_refl Hrest)
        end;
      reflexivity. }
  rewrite Hgone.
  rewrite (contains_hasChar " " "typedef struct" _ eq_refl Hrest).
  now rewrite strip_ident_newline.
Qed.

(** X27.  A line of the file of substitute typedefs that declares a name
    with one of the four heads [typedef int], [typedef uint32_t],
    [typedef _Bool] and [typedef void*] puts exactly that name into the
    set of ignored typedefs. *)
Theorem findIgnores_simple_typedef :
  forall (head name : string) (lines : list string),
    In head simpleHeads ->
    allChars is_ident name = true ->
    ignoredName (head ++ name ++ ";" ++ newline) = Some name
    /\ (In (head ++ name ++ ";" ++ newline) lines ->
        In name (findIgnores (Some lines))).
Proof.
  intros head name lines Hin Hname.
  pose proof (ignoredName_simple head name Hin Hname) as H.
  split; [exact H|]. intros Hl. cbn [findIgnores].
  apply findIgnores_loop_In. right. eexists. split; [exact Hl|exact H].
Qed.

Lemma findIgnores_simple_typedef_witness :
  ignoredName ("typedef int " ++ "size_t" ++ ";" ++ newline) = Some "size_t"
  /\ In "size_t" (findIgnores (Some fake_lines)).
Proof.
  pose proof (findIgnores_simple_typedef "typedef int " "size_t" fake_lines
                (or_introl eq_refl) eq_refl) as [H1 H2].
  split; [exact H1|]. apply H2. left. reflexivity.
Defined.

Lemma blanks_app (a b : string) : blanks (a ++ b) = (blanks a + blanks b)%nat.
Proof.
  induction a as [|c a IH]; cbn [append blanks]; [reflexivity|].
  rewrite IH. lia.
Qed.

Lemma blanks_ident (s : string) : allChars is_ident s = true -> blanks s = 0.
Proof.
  induction s as [|c s IH]; intros H; [reflexivity|].
  cbn [allChars] in H. apply andb_true_iff in H as [Hc Hs].
  cbn [blanks]. rewrite (IH Hs).
  destruct (Ascii.eqb " " c) eqn:E; [|reflexivity].
  apply Ascii.eqb_eq in E. subst c. discriminate Hc.
Qed.

Lemma prefix_blanks (p s : string) :
  String.prefix p s = true -> (blanks p <= blanks s)%nat.
Proof.
  revert s. induction p as [|x p IH]; intros s H; [cbn; lia|].
  destruct s as [|y s]; [discriminate H|]. rewrite prefix_cons in H.
  destruct (Ascii.eqb x y) eqn:E; [|discriminate H].
  apply Ascii.eqb_eq in E. subst y. cbn [blanks].
  specialize (IH s H). lia.
Qed.

Lemma contains_blanks (p s : string) :
  (blanks s < blanks p)%nat -> PyStr.contains p s = false.
Proof.
  induction s as [|c s IH]; intros H; cbn [PyStr.contains].
  - destruct p; [cbn in H; lia|reflexivity].
  - destruct (String.prefix p (String c s)) eqn:E.
    + apply prefix_blanks in E. lia.
    + apply IH. cbn [blanks] in H. lia.
Qed.

Lemma replace_other_blanks (old head rest : string) :
  clashAll old head = true ->
  (blanks rest < blanks old)%nat ->
  PyStr.replace old "" (head ++ rest) = head ++ rest.
Proof.
  intros Hc Hb. unfold PyStr.replace.
  rewrite (replace_clashAll _ _ _ _ Hc). f_equal.
  apply replace_absent. now apply contains_blanks.
Qed.

Lemma contains_prefix (p s : string) :
  String.prefix p s = true -> PyStr.contains p s = true.
Proof. intros H. destruct s; cbn [PyStr.contains]; now rewrite H. Qed.

(** A word up to the white space behind it. *)
Lemma split_ws_word (w : string) (sp : ascii) (s cur : string) :
  allChars is_ident w = true ->
  is_space sp = true ->
  PyStr.split_ws_aux (w ++ String sp s) cur
  = if (cur ++ w) =? ""
    then PyStr.split_ws_aux s ""
    else (cur ++ w) :: PyStr.split_ws_aux s "".
Proof.
  intros Hw Hsp. revert cur.
  induction w as [|c w IH]; intros cur.
  - rewrite append_nil_r. cbn [append PyStr.split_ws_aux]. now rewrite Hsp.
  - cbn [allChars] in Hw. apply andb_true_iff in Hw as [Hc Hw].
    cbn [append PyStr.split_ws_aux]. rewrite (ident_not_space c Hc).
    rewrite (IH Hw). now rewrite append_assoc.
Qed.

Lemma ignoredName_struct (tag name : string) :
  allChars is_ident tag = true ->
  allChars is_ident name = true ->
  name <> "" ->
  ignoredName ("typedef struct " ++ tag ++ " " ++ name ++ ";" ++ newline)
  = Some name.
Proof.
  intros Htag Hname Hne.
  assert (Hsemi : hasChar ";" ("typedef struct " ++ tag ++ " " ++ name)
                  = false).
  { rewrite !hasChar_app.
    rewrite (allChars_hasChar is_ident ";" tag Htag eq_refl).
    rewrite (allChars_hasChar is_ident ";" name Hname eq_refl).
    reflexivity. }
  assert (Hfirst :
            PyStr.replace ";" ""
              ("typedef struct " ++ tag ++ " " ++ name ++ ";" ++ newline)
            = "typedef struct " ++ tag ++ " " ++ name ++ newline).
  { transitivity
      (PyStr.replace ";" ""
         (("typedef struct " ++ tag ++ " " ++ name) ++ ";" ++ newline)).
    - now rewrite !append_assoc.
    - unfold PyStr.replace. rewrite (replace_char_app _ _ _ _ Hsemi).
      rewrite !append_assoc. reflexivity. }
  assert (Hblank : blanks (tag ++ " " ++ name ++ newline) = 1).
  { rewrite !blanks_app, (blanks_ident tag Htag), (blanks_ident name Hname).
    reflexivity. }
  unfold ignoredName, Py.startswith.
  rewrite (prefix_app "typedef" "typedef struct " _ eq_refl).
  cbv zeta. rewrite Hfirst.
  rewrite (replace_other_blanks "typedef int " "typedef struct "
             (tag ++ " " ++ name ++ newline) eq_refl)
    by (rewrite Hblank; cbn; lia).
  rewrite (replace_other_blanks "typedef uint32_t " "typedef struct "
             (tag ++ " " ++ name ++ newline) eq_refl)
    by (rewrite Hblank; cbn; lia).
  rewrite (replace_other_blanks "typedef _Bool " "typedef struct "
             (tag ++ " " ++ name ++ newline) eq_refl)
    by (rewrite Hblank; cbn; lia).
  rewrite (replace_other_blanks "typedef void* " "typedef struct "
             (tag ++ " " ++ name ++ newline) eq_refl)
    by (rewrite Hblank; cbn; lia).
  rewrite (contains_prefix "typedef struct" _
             (prefix_app "typedef struct" "typedef struct " _ eq_refl)).
  unfold PyStr.split_ws.
  change ("typedef struct " ++ tag ++ " " ++ name ++ newline)
    with ("typedef" ++ String " "
            ("struct" ++ String " "
               (tag ++ String " " (name ++ String (ascii_of_nat 10) ""))))%string.
  rewrite (split_ws_word "typedef" " " _ "" eq_refl eq_refl).
  rewrite (split_ws_word "struct" " " _ "" eq_refl eq_refl).
  rewrite (split_ws_word tag " " _ "" Htag eq_refl).
  rewrite (split_ws_word name (ascii_of_nat 10) "" "" Hname eq_refl).
  change ("" ++ "typedef" =? "") with false.
  change ("" ++ "struct" =? "") with false.
  change ("" ++ name) with name. change ("" ++ tag) with tag.
  apply String.eqb_neq in Hne. rewrite Hne.
  cbn [PyStr.split_ws_aux String.eqb].
  unfold Py.last.
  destruct (tag =? ""); cbn [List.last]; now rewrite strip_ident.
Qed.

(** X28.  A line of the file of substitute typedefs of the form
    [typedef struct tag name;] puts the name, not the tag, into the set
    of ignored typedefs. *)
Theorem findIgnores_struct_typedef :
  forall (tag name : string) (lines : list string),
    allChars is_ident tag = true ->
    allChars is_ident name = true ->
    name <> "" ->
    ignoredName ("typedef struct " ++ tag ++ " " ++ name ++ ";" ++ newline)
    = Some name
    /\ (In ("typedef struct " ++ tag ++ " " ++ name ++ ";" ++ newline) lines ->
        In name (findIgnores (Some lines))).
Proof.
  intros tag name lines Htag Hname Hne.
  pose proof (ignoredName_struct tag name Htag Hname Hne) as H.
  split; [exact H|]. intros Hl. cbn [findIgnores].
  apply findIgnores_loop_In. right. eexists. split; [exact Hl|exact H].
Qed.

Lemma findIgnores_struct_typedef_witness :
  ignoredName ("typedef struct " ++ "__FILE" ++ " " ++ "FILE" ++ ";" ++ newline)
  = Some "FILE"
  /\ In "FILE" (findIgnores (Some fake_lines)).
Proof.
  pose proof (findIgnores_struct_typedef "__FILE" "FILE" fake_lines
                eq_refl eq_refl ltac:(discriminate)) as [H1 H2].
  split; [exact H1|]. apply H2. right. left. reflexivity.
Defined.
